(** * provider-sonarqube: the quality gate reconcilers

    A shallow embedding of the decision logic of the SonarQube Crossplane
    provider: the pure helpers of package [instance] (observation
    mapping, up-to-date comparison, late initialization) and the
    Observe / Create / Update / Delete methods of the two controllers,
    [qualitygate] and [qualitygatecondition]; further on, the reference
    resolution of a condition, the configuration of the client from a
    provider config (package [common]) and the [Connect] methods.

    Go pointers are options ([None] is [nil]); a function that
    mutates through a pointer returns the new pointee.  The remote
    SonarQube client is an interface in the source: here it is a record
    of methods over an arbitrary server state, and every call that a
    controller issues is appended to a log.  A nil dereference is the
    outcome [Panic]. *)

From stdpp Require Import base option list strings gmap.

Local Open Scope string_scope.
Local Open Scope list_scope.

(** ** Go errors *)

Module errors.

(** [errors.New] builds an [errorString]; [errors.Wrap] of
    github.com/pkg/errors puts a message in front of a cause. *)
Inductive error : Type :=
  | errorString (s : string)
  | withMessage (cause : error) (msg : string).

#[global] Instance error_eq_dec : EqDecision error.
Proof. solve_decision. Defined.

Definition New (text : string) : error := errorString text.

(** [Wrap] returns nil when [err] is nil. *)
Definition Wrap (err : option error) (message : string) : option error :=
  match err with
  | None => None
  | Some e => Some (withMessage e message)
  end.

(** The [Error()] method, by which the tests compare errors. *)
Fixpoint Error (e : error) : string :=
  match e with
  | errorString s => s
  | withMessage cause msg => msg +:+ ": " +:+ Error cause
  end.

End errors.

Module fmt.

(** [fmt.Errorf(format, arg)] for the one shape the controllers use, a
    format that ends in its only verb, [%s]: [prefix] is the format
    without the verb. *)
Definition Errorf (prefix arg : string) : errors.error :=
  errors.errorString (prefix +:+ arg).

End fmt.

(** ** Package helpers

    The controllers and package [instance] import [internal/helpers],
    whose source file is missing.  The two generic functions that the
    decision logic uses form an interface here, so that whatever does not
    depend on their behaviour is proved for every implementation of
    them. *)

Module helpers.

(** [AssignIfNil] receives the address of an optional field and a value:
    the function here maps the field before the call to the field after
    it.  [IsComparablePtrEqualComparable] receives an optional field and a
    value of a comparable type. *)
Class Helpers : Type := {
  AssignIfNil : ∀ {T : Type}, option T → T → option T;
  IsComparablePtrEqualComparable :
    ∀ {T : Type} `{EqDecision T}, option T → T → bool
}.

(** Modelled from the spec: [helpers.AssignIfNil], whose source file is
    missing.  Section 4.2: for each optional field that is unset, assign
    the corresponding observed value; already-set fields are never
    overwritten. *)
Definition spec_AssignIfNil {T : Type} (ptr : option T) (value : T) : option T :=
  match ptr with
  | None => Some value
  | Some v => Some v
  end.

(** Modelled from the spec: [helpers.IsComparablePtrEqualComparable],
    whose source file is missing.  Section 4.1: a set optional field is
    compared against the literal observed value by strict equality; an
    unset optional field always matches. *)
Definition spec_IsComparablePtrEqualComparable {T : Type} `{EqDecision T}
    (ptr : option T) (value : T) : bool :=
  match ptr with
  | None => true
  | Some v => bool_decide (v = value)
  end.

(** The helpers package as the spec describes it. *)
Definition spec_helpers : Helpers :=
  {| AssignIfNil := @spec_AssignIfNil;
     IsComparablePtrEqualComparable := @spec_IsComparablePtrEqualComparable |}.

End helpers.

(** ** The SonarQube client library (sonargo)

    The types of github.com/boxboxjason/sonarqube-client-go, with the
    fields the provider reads or writes.  Field names carry a prefix for
    the struct they belong to. *)

Module sonargo.

(** [QualitygatesShowObject_sub1]: the permitted actions. *)
Record QualitygatesShowObject_sub1 : Type := {
  sub1_AssociateProjects : bool;
  sub1_Copy : bool;
  sub1_Delegate : bool;
  sub1_Delete : bool;
  sub1_ManageAiCodeAssurance : bool;
  sub1_ManageConditions : bool;
  sub1_Rename : bool;
  sub1_SetAsDefault : bool
}.

(** [QualitygatesShowObject_sub2]: one condition of a shown gate. *)
Record QualitygatesShowObject_sub2 : Type := {
  sub2_Error : string;
  sub2_ID : string;
  sub2_Metric : string;
  sub2_Op : string
}.

Record QualitygatesShowObject : Type := {
  show_Actions : QualitygatesShowObject_sub1;
  show_CaycStatus : string;
  show_Conditions : list QualitygatesShowObject_sub2;
  show_IsAiCodeSupported : bool;
  show_IsBuiltIn : bool;
  show_IsDefault : bool;
  show_Name : string
}.

Record QualitygatesCreateObject : Type := {
  created_ID : string;
  created_Name : string
}.

Record QualitygatesCreateConditionObject : Type := {
  createdcond_Error : string;
  createdcond_ID : string;
  createdcond_Metric : string;
  createdcond_Op : string
}.

Record QualitygatesShowOption : Type := { showopt_Name : string }.

Record QualitygatesCreateOption : Type := { createopt_Name : string }.

Record QualitygatesSetAsDefaultOption : Type := { setdefaultopt_Name : string }.

Record QualitygatesRenameOption : Type := {
  renameopt_CurrentName : string;
  renameopt_Name : string
}.

Record QualitygatesDestroyOption : Type := { destroyopt_Name : string }.

Record QualitygatesCreateConditionOption : Type := {
  createcondopt_GateName : string;
  createcondopt_Error : string;
  createcondopt_Metric : string;
  createcondopt_Op : string
}.

Record QualitygatesUpdateConditionOption : Type := {
  updatecondopt_Id : string;
  updatecondopt_Error : string;
  updatecondopt_Metric : string;
  updatecondopt_Op : string
}.

Record QualitygatesDeleteConditionOption : Type := { deletecondopt_Id : string }.

End sonargo.

(** ** crossplane-runtime: conditions, references, object metadata *)

Module xpv1.

Inductive ConditionType : Type := TypeReady | TypeSynced | TypeHealthy.

Inductive ConditionStatus : Type := ConditionTrue | ConditionFalse | ConditionUnknown.

Inductive ConditionReason : Type :=
  | ReasonAvailable | ReasonUnavailable | ReasonCreating | ReasonDeleting.

(** A status condition, without its timestamps and message. *)
Record Condition : Type := {
  cond_Type : ConditionType;
  cond_Status : ConditionStatus;
  cond_Reason : ConditionReason
}.

#[global] Instance ConditionType_eq_dec : EqDecision ConditionType.
Proof. solve_decision. Defined.

Definition Available : Condition :=
  {| cond_Type := TypeReady; cond_Status := ConditionTrue; cond_Reason := ReasonAvailable |}.

Definition Creating : Condition :=
  {| cond_Type := TypeReady; cond_Status := ConditionFalse; cond_Reason := ReasonCreating |}.

Definition Deleting : Condition :=
  {| cond_Type := TypeReady; cond_Status := ConditionFalse; cond_Reason := ReasonDeleting |}.

(** [ConditionedStatus.SetConditions] for one condition: a stored
    condition of the same type is replaced, otherwise the new one is
    appended. *)
Definition SetCondition (cond : Condition) (conditions : list Condition) : list Condition :=
  if existsb (λ existing, bool_decide (cond_Type existing = cond_Type cond)) conditions
  then (λ existing,
          if bool_decide (cond_Type existing = cond_Type cond) then cond else existing)
         <$> conditions
  else conditions ++ [cond].

Record Policy : Type := {
  policy_Resolve : option string;
  policy_Resolution : option string
}.

Record NamespacedReference : Type := {
  ref_Name : string;
  ref_Namespace : string;
  ref_Policy : option Policy
}.

Record NamespacedSelector : Type := {
  sel_MatchLabels : gmap string string;
  sel_MatchControllerRef : option bool;
  sel_Policy : option Policy;
  sel_Namespace : string
}.

#[global] Instance Policy_eq_dec : EqDecision Policy.
Proof. solve_decision. Defined.

#[global] Instance NamespacedReference_eq_dec : EqDecision NamespacedReference.
Proof. solve_decision. Defined.

#[global] Instance NamespacedSelector_eq_dec : EqDecision NamespacedSelector.
Proof. solve_decision. Defined.

End xpv1.

Module metav1.

(** [metav1.ObjectMeta]: the Kubernetes name of the resource and its
    annotations. *)
Record ObjectMeta : Type := {
  Name : string;
  Annotations : gmap string string
}.

End metav1.

(** ** The API types (package v1alpha1) *)

Module v1alpha1.

(** The desired state of a quality gate. *)
Record QualityGateParameters : Type := {
  gp_Name : string;
  gp_Default : option bool
}.

Record QualityGatesActions : Type := {
  act_AssociateProjects : bool;
  act_Copy : bool;
  act_Delegate : bool;
  act_Delete : bool;
  act_ManageAiCodeAssurance : bool;
  act_ManageConditions : bool;
  act_Rename : bool;
  act_SetAsDefault : bool
}.

(** The observable fields of a quality gate condition. *)
Record QualityGateConditionObservation : Type := {
  co_Error : string;
  co_ID : string;
  co_Metric : string;
  co_Op : string
}.

(** The observable fields of a quality gate. *)
Record QualityGateObservation : Type := {
  go_Actions : QualityGatesActions;
  go_CaycStatus : string;
  go_Conditions : list QualityGateConditionObservation;
  go_IsAiCodeSupported : bool;
  go_IsBuiltIn : bool;
  go_IsDefault : bool;
  go_Name : string
}.

(** Of the spec and the status of a resource, the parts that the
    controllers read or write: [ForProvider], [AtProvider], and the
    conditions of the embedded [ResourceStatus]. *)
Record QualityGateSpec : Type := { gs_ForProvider : QualityGateParameters }.

Record QualityGateStatus : Type := {
  gst_Conditions : list xpv1.Condition;
  gst_AtProvider : QualityGateObservation
}.

Record QualityGate : Type := {
  g_ObjectMeta : metav1.ObjectMeta;
  g_Spec : QualityGateSpec;
  g_Status : QualityGateStatus
}.

(** The configurable fields of a quality gate condition. *)
Record QualityGateConditionParameters : Type := {
  cp_QualityGateName : option string;
  cp_QualityGateRef : option xpv1.NamespacedReference;
  cp_QualityGateSelector : option xpv1.NamespacedSelector;
  cp_Error : string;
  cp_Metric : string;
  cp_Op : option string
}.

Record QualityGateConditionSpec : Type := { cs_ForProvider : QualityGateConditionParameters }.

Record QualityGateConditionStatus : Type := {
  cst_Conditions : list xpv1.Condition;
  cst_AtProvider : QualityGateConditionObservation
}.

Record QualityGateCondition : Type := {
  c_ObjectMeta : metav1.ObjectMeta;
  c_Spec : QualityGateConditionSpec;
  c_Status : QualityGateConditionStatus
}.

#[global] Instance QualityGateParameters_eq_dec : EqDecision QualityGateParameters.
Proof. solve_decision. Defined.

#[global] Instance QualityGateConditionParameters_eq_dec :
  EqDecision QualityGateConditionParameters.
Proof. solve_decision. Defined.

(** The zero values of the observation structs. *)
Definition QualityGateConditionObservation_zero : QualityGateConditionObservation :=
  {| co_Error := ""; co_ID := ""; co_Metric := ""; co_Op := "" |}.

(** Assignments to the nested fields the controllers write. *)
Definition QualityGate_withObjectMeta (o : metav1.ObjectMeta) (cr : QualityGate)
    : QualityGate :=
  {| g_ObjectMeta := o; g_Spec := g_Spec cr; g_Status := g_Status cr |}.

Definition QualityGate_withForProvider (p : QualityGateParameters) (cr : QualityGate)
    : QualityGate :=
  {| g_ObjectMeta := g_ObjectMeta cr;
     g_Spec := {| gs_ForProvider := p |};
     g_Status := g_Status cr |}.

Definition QualityGate_withAtProvider (o : QualityGateObservation) (cr : QualityGate)
    : QualityGate :=
  {| g_ObjectMeta := g_ObjectMeta cr;
     g_Spec := g_Spec cr;
     g_Status := {| gst_Conditions := gst_Conditions (g_Status cr); gst_AtProvider := o |} |}.

(** [cr.Status.SetConditions(cond)] *)
Definition QualityGate_SetConditions (cond : xpv1.Condition) (cr : QualityGate)
    : QualityGate :=
  {| g_ObjectMeta := g_ObjectMeta cr;
     g_Spec := g_Spec cr;
     g_Status :=
       {| gst_Conditions := xpv1.SetCondition cond (gst_Conditions (g_Status cr));
          gst_AtProvider := gst_AtProvider (g_Status cr) |} |}.

Definition QualityGateCondition_withObjectMeta (o : metav1.ObjectMeta)
    (cr : QualityGateCondition) : QualityGateCondition :=
  {| c_ObjectMeta := o; c_Spec := c_Spec cr; c_Status := c_Status cr |}.

Definition QualityGateCondition_withForProvider (p : QualityGateConditionParameters)
    (cr : QualityGateCondition) : QualityGateCondition :=
  {| c_ObjectMeta := c_ObjectMeta cr;
     c_Spec := {| cs_ForProvider := p |};
     c_Status := c_Status cr |}.

Definition QualityGateCondition_withAtProvider (o : QualityGateConditionObservation)
    (cr : QualityGateCondition) : QualityGateCondition :=
  {| c_ObjectMeta := c_ObjectMeta cr;
     c_Spec := c_Spec cr;
     c_Status := {| cst_Conditions := cst_Conditions (c_Status cr); cst_AtProvider := o |} |}.

(** [cr.Status.SetConditions(cond)] *)
Definition QualityGateCondition_SetConditions (cond : xpv1.Condition)
    (cr : QualityGateCondition) : QualityGateCondition :=
  {| c_ObjectMeta := c_ObjectMeta cr;
     c_Spec := c_Spec cr;
     c_Status :=
       {| cst_Conditions := xpv1.SetCondition cond (cst_Conditions (c_Status cr));
          cst_AtProvider := cst_AtProvider (c_Status cr) |} |}.

(** What the reconciler can be handed as a [resource.Managed]. *)
Inductive Managed : Type :=
  | ManagedQualityGate (cr : QualityGate)
  | ManagedQualityGateCondition (cr : QualityGateCondition)
  | ManagedOther (meta : metav1.ObjectMeta).

End v1alpha1.

(** ** Package meta: the external name annotation *)

Module meta.

Definition AnnotationKeyExternalName : string := "crossplane.io/external-name".

(** [GetExternalName]: the annotation, or the empty string. *)
Definition GetExternalName (o : metav1.ObjectMeta) : string :=
  default "" (metav1.Annotations o !! AnnotationKeyExternalName).

(** [SetExternalName]: adds or overwrites the annotation. *)
Definition SetExternalName (o : metav1.ObjectMeta) (name : string) : metav1.ObjectMeta :=
  {| metav1.Name := metav1.Name o;
     metav1.Annotations := <[AnnotationKeyExternalName := name]> (metav1.Annotations o) |}.

End meta.

(** ** Panics *)

(** The result of Go code that may panic: a value, or the panic. *)
Inductive panicking (A : Type) : Type :=
  | Normal (a : A)
  | Panic (reason : string).

Arguments Normal {A} a.
Arguments Panic {A} reason.

Definition nilDereference : string :=
  "runtime error: invalid memory address or nil pointer dereference".

(** Dereferences a pointer. *)
Definition deref {A : Type} (p : option A) : panicking A :=
  match p with
  | Some a => Normal a
  | None => Panic nilDereference
  end.

(** ** Package instance: mapping, comparison, late initialization *)

Module instance.

Import sonargo v1alpha1.

Section WithHelpers.

Context `{helpers.Helpers}.

Definition errConditionNotFound : string :=
  "quality gate condition not found in observation".

Definition GenerateQualityGateConditionObservation
    (condition : QualitygatesShowObject_sub2) : QualityGateConditionObservation :=
  {| co_Error := sub2_Error condition;
     co_ID := sub2_ID condition;
     co_Metric := sub2_Metric condition;
     co_Op := sub2_Op condition |}.

(** One observation per condition, in order. *)
Definition GenerateQualityGateConditionsObservation
    (conditions : list QualitygatesShowObject_sub2) : list QualityGateConditionObservation :=
  GenerateQualityGateConditionObservation <$> conditions.

(** The loop over [condition] returns at the first element whose ID is
    [id]; after the loop, the zero observation and an error. *)
Fixpoint FindQualityGateConditionObservation (id : string)
    (condition : list QualitygatesShowObject_sub2)
    : QualityGateConditionObservation * option errors.error :=
  match condition with
  | [] => (QualityGateConditionObservation_zero, Some (errors.New errConditionNotFound))
  | cond :: rest =>
      if bool_decide (sub2_ID cond = id)
      then (GenerateQualityGateConditionObservation cond, None)
      else FindQualityGateConditionObservation id rest
  end.

(** [GateName] is read through [params.QualityGateName] without a nil check. *)
Definition GenerateCreateQualityGateConditionOption
    (params : QualityGateConditionParameters)
    : panicking QualitygatesCreateConditionOption :=
  match deref (cp_QualityGateName params) with
  | Panic reason => Panic reason
  | Normal gateName =>
      Normal {| createcondopt_GateName := gateName;
                createcondopt_Error := cp_Error params;
                createcondopt_Metric := cp_Metric params;
                createcondopt_Op :=
                  match cp_Op params with
                  | Some op => op
                  | None => ""
                  end |}
  end.

Definition GenerateUpdateQualityGateConditionOption (id : string)
    (params : QualityGateConditionParameters) : QualitygatesUpdateConditionOption :=
  {| updatecondopt_Id := id;
     updatecondopt_Error := cp_Error params;
     updatecondopt_Metric := cp_Metric params;
     updatecondopt_Op :=
       match cp_Op params with
       | Some op => op
       | None => ""
       end |}.

Definition GenerateDeleteQualityGateConditionOption (id : string)
    : QualitygatesDeleteConditionOption :=
  {| deletecondopt_Id := id |}.

Definition IsQualityGateConditionUpToDate
    (params : option QualityGateConditionParameters)
    (observation : option QualityGateConditionObservation) : bool :=
  match params with
  | None => true
  | Some params =>
      match observation with
      | None => false
      | Some observation =>
          if bool_decide (cp_Error params ≠ co_Error observation) then false
          else if bool_decide (cp_Metric params ≠ co_Metric observation) then false
          else if negb (helpers.IsComparablePtrEqualComparable
                          (cp_Op params) (co_Op observation)) then false
          else true
      end
  end.

(** The result is [*params] after the call ([None] when [params] is nil).
    Only [&params.Op] is handed to the helper. *)
Definition LateInitializeQualityGateCondition
    (params : option QualityGateConditionParameters)
    (observation : option QualityGateConditionObservation)
    : option QualityGateConditionParameters :=
  match params, observation with
  | Some p, Some observation =>
      Some {| cp_QualityGateName := cp_QualityGateName p;
              cp_QualityGateRef := cp_QualityGateRef p;
              cp_QualityGateSelector := cp_QualityGateSelector p;
              cp_Error := cp_Error p;
              cp_Metric := cp_Metric p;
              cp_Op := helpers.AssignIfNil (cp_Op p) (co_Op observation) |}
  | _, _ => params
  end.

Definition GenerateQualityGateCreateOptions (spec : QualityGateParameters)
    : QualitygatesCreateOption :=
  {| createopt_Name := gp_Name spec |}.

(** [actions] should not be nil, else it will panic. *)
Definition GenerateQualityGateActionsObservation
    (actions : option QualitygatesShowObject_sub1) : panicking QualityGatesActions :=
  match deref actions with
  | Panic reason => Panic reason
  | Normal actions =>
      Normal {| act_AssociateProjects := sub1_AssociateProjects actions;
                act_Copy := sub1_Copy actions;
                act_Delegate := sub1_Delegate actions;
                act_Delete := sub1_Delete actions;
                act_ManageAiCodeAssurance := sub1_ManageAiCodeAssurance actions;
                act_ManageConditions := sub1_ManageConditions actions;
                act_Rename := sub1_Rename actions;
                act_SetAsDefault := sub1_SetAsDefault actions |}
  end.

(** [observation] should not be nil, else it will panic. *)
Definition GenerateQualityGateObservation
    (observation : option QualitygatesShowObject) : panicking QualityGateObservation :=
  match deref observation with
  | Panic reason => Panic reason
  | Normal observation =>
      match GenerateQualityGateActionsObservation (Some (show_Actions observation)) with
      | Panic reason => Panic reason
      | Normal actions =>
          Normal {| go_Actions := actions;
                    go_CaycStatus := show_CaycStatus observation;
                    go_Conditions :=
                      GenerateQualityGateConditionsObservation (show_Conditions observation);
                    go_IsAiCodeSupported := show_IsAiCodeSupported observation;
                    go_IsBuiltIn := show_IsBuiltIn observation;
                    go_IsDefault := show_IsDefault observation;
                    go_Name := show_Name observation |}
      end
  end.

Definition IsQualityGateUpToDate (spec : option QualityGateParameters)
    (observation : option QualityGateObservation) : bool :=
  match spec with
  | None => true
  | Some spec =>
      match observation with
      | None => false
      | Some observation =>
          if bool_decide (gp_Name spec ≠ go_Name observation) then false
          else if negb (helpers.IsComparablePtrEqualComparable
                          (gp_Default spec) (go_IsDefault observation)) then false
          else true
      end
  end.

(** The result is [*spec] after the call ([None] when [spec] is nil).
    Only [&spec.Default] is handed to the helper. *)
Definition LateInitializeQualityGate (spec : option QualityGateParameters)
    (observation : option QualityGateObservation) : option QualityGateParameters :=
  match spec, observation with
  | Some s, Some observation =>
      Some {| gp_Name := gp_Name s;
              gp_Default := helpers.AssignIfNil (gp_Default s) (go_IsDefault observation) |}
  | _, _ => spec
  end.

End WithHelpers.

(** The interface [QualityGatesClient], with the eight methods the
    controllers call.  A method takes its option struct and the state of
    the SonarQube server and returns what the Go method returns (without
    the [*http.Response], which is only ever closed) and the state of the
    server afterwards. *)
Record QualityGatesClient (Srv : Type) : Type := {
  Create : QualitygatesCreateOption →
           Srv → (option QualitygatesCreateObject * option errors.error) * Srv;
  CreateCondition : QualitygatesCreateConditionOption →
           Srv → (option QualitygatesCreateConditionObject * option errors.error) * Srv;
  DeleteCondition : QualitygatesDeleteConditionOption → Srv → option errors.error * Srv;
  Destroy : QualitygatesDestroyOption → Srv → option errors.error * Srv;
  Rename : QualitygatesRenameOption → Srv → option errors.error * Srv;
  SetAsDefault : QualitygatesSetAsDefaultOption → Srv → option errors.error * Srv;
  Show : QualitygatesShowOption →
         Srv → (option QualitygatesShowObject * option errors.error) * Srv;
  UpdateCondition : QualitygatesUpdateConditionOption → Srv → option errors.error * Srv
}.

Arguments Create {Srv} _ _ _.
Arguments CreateCondition {Srv} _ _ _.
Arguments DeleteCondition {Srv} _ _ _.
Arguments Destroy {Srv} _ _ _.
Arguments Rename {Srv} _ _ _.
Arguments SetAsDefault {Srv} _ _ _.
Arguments Show {Srv} _ _ _.
Arguments UpdateCondition {Srv} _ _ _.

End instance.

(** ** The reconciler's view of the world *)

Module managed.

Import sonargo v1alpha1.

(** [ExternalObservation], with the fields the controllers set. *)
Record ExternalObservation : Type := {
  ResourceExists : bool;
  ResourceUpToDate : bool;
  ResourceLateInitialized : bool
}.

(** [managed.ExternalObservation{}] *)
Definition ExternalObservation_zero : ExternalObservation :=
  {| ResourceExists := false; ResourceUpToDate := false; ResourceLateInitialized := false |}.

(** [ExternalCreation], [ExternalUpdate] and [ExternalDelete] are only
    ever returned as their zero value. *)
Inductive ExternalCreation : Type := ExternalCreation_zero.
Inductive ExternalUpdate : Type := ExternalUpdate_zero.
Inductive ExternalDelete : Type := ExternalDelete_zero.

(** A call issued to the remote client, with its argument. *)
Inductive Call : Type :=
  | CallCreate (opt : QualitygatesCreateOption)
  | CallCreateCondition (opt : QualitygatesCreateConditionOption)
  | CallDeleteCondition (opt : QualitygatesDeleteConditionOption)
  | CallDestroy (opt : QualitygatesDestroyOption)
  | CallRename (opt : QualitygatesRenameOption)
  | CallSetAsDefault (opt : QualitygatesSetAsDefaultOption)
  | CallShow (opt : QualitygatesShowOption)
  | CallUpdateCondition (opt : QualitygatesUpdateConditionOption).

(** What a method of a controller runs against: the object behind the
    [mg] pointer, the SonarQube server, and the calls issued so far. *)
Record World (Srv T : Type) : Type := {
  object : T;
  server : Srv;
  calls : list Call
}.

Arguments object {Srv T} _.
Arguments server {Srv T} _.
Arguments calls {Srv T} _.

(** Go statements: they change the world and yield a value, or panic. *)
Definition M (W A : Type) : Type := W → panicking A * W.

#[global] Instance M_ret {W : Type} : MRet (M W) := λ A a w, (Normal a, w).

#[global] Instance M_bind {W : Type} : MBind (M W) :=
  λ A B f m w,
    match m w with
    | (Normal a, w') => f a w'
    | (Panic reason, w') => (Panic reason, w')
    end.

Section Statements.

Context {Srv T : Type}.

(** Reads the object behind the pointer. *)
Definition get : M (World Srv T) T := λ w, (Normal (object w), w).

(** Writes to the object behind the pointer. *)
Definition modify (f : T → T) : M (World Srv T) unit :=
  λ w, (Normal (), {| object := f (object w); server := server w; calls := calls w |}).

(** A call of a client method: logged, then answered by the server. *)
Definition remote {R : Type} (call : Call) (method : Srv → R * Srv)
    : M (World Srv T) R :=
  λ w, let '(r, srv) := method (server w) in
       (Normal r, {| object := object w; server := srv; calls := calls w ++ [call] |}).

(** An expression that may panic. *)
Definition eval {A : Type} (e : panicking A) : M (World Srv T) A := λ w, (e, w).

End Statements.

(** The type assertion on [mg] at the head of every method:
    [body] runs on the asserted object, and [otherwise] is returned when
    the assertion fails. *)
Definition asserting {Srv T A : Type} (assertion : Managed → option T)
    (back : T → Managed) (otherwise : A) (body : M (World Srv T) A)
    : M (World Srv Managed) A :=
  λ w, match assertion (object w) with
       | None => (Normal otherwise, w)
       | Some cr =>
           let '(r, w') := body {| object := cr; server := server w; calls := calls w |} in
           (r, {| object := back (object w'); server := server w'; calls := calls w' |})
       end.

Definition asQualityGate (mg : Managed) : option QualityGate :=
  match mg with
  | ManagedQualityGate cr => Some cr
  | _ => None
  end.

Definition asQualityGateCondition (mg : Managed) : option QualityGateCondition :=
  match mg with
  | ManagedQualityGateCondition cr => Some cr
  | _ => None
  end.

End managed.

(** ** Controller qualitygate *)

Module qualitygate.

Import sonargo v1alpha1 managed.

Definition errNotQualityGate : string :=
  "managed resource is not a QualityGate custom resource".
Definition errCreateQualityGate : string := "cannot create SonarQube Quality Gate".
Definition errDefaultQualityGate : string :=
  "cannot set SonarQube Quality Gate as default".
Definition errUpdateQualityGate : string := "cannot update SonarQube Quality Gate".
Definition errDeleteQualityGate : string := "cannot delete SonarQube Quality Gate".
Definition errShowQualityGate : string := "cannot get SonarQube Quality Gate".

Section Controller.

Context `{helpers.Helpers}.
Context {Srv : Type}.

(** The [external] client of the controller. *)
Record external : Type := {
  qualityGatesClient : instance.QualityGatesClient Srv
}.

Definition Observe (c : external)
    : M (World Srv Managed) (ExternalObservation * option errors.error) :=
  asserting asQualityGate ManagedQualityGate
    (ExternalObservation_zero, Some (errors.New errNotQualityGate))
    (cr ← get;
     let externalName := meta.GetExternalName (g_ObjectMeta cr) in
     if bool_decide (externalName = "")
     then mret ({| ResourceExists := false;
                   ResourceUpToDate := false;
                   ResourceLateInitialized := false |}, None)
     else
       let opt := {| showopt_Name := externalName |} in
       '(qualityGate, err) ← remote (CallShow opt)
                               (instance.Show (qualityGatesClient c) opt);
       match err with
       | Some _ =>
           mret ({| ResourceExists := false;
                    ResourceUpToDate := false;
                    ResourceLateInitialized := false |},
                 errors.Wrap err errShowQualityGate)
       | None =>
           atProvider ← eval (instance.GenerateQualityGateObservation qualityGate);
           modify (QualityGate_withAtProvider atProvider);;
           modify (QualityGate_SetConditions xpv1.Available);;
           cr ← get;
           let current := gs_ForProvider (g_Spec cr) in
           modify (QualityGate_withForProvider
                     (default current
                        (instance.LateInitializeQualityGate
                           (Some current) (Some (gst_AtProvider (g_Status cr))))));;
           cr ← get;
           mret ({| ResourceExists := true;
                    ResourceUpToDate :=
                      instance.IsQualityGateUpToDate
                        (Some (gs_ForProvider (g_Spec cr)))
                        (Some (gst_AtProvider (g_Status cr)));
                    ResourceLateInitialized :=
                      negb (bool_decide (current = gs_ForProvider (g_Spec cr))) |},
                 None)
       end).

Definition Create (c : external)
    : M (World Srv Managed) (ExternalCreation * option errors.error) :=
  asserting asQualityGate ManagedQualityGate
    (ExternalCreation_zero, Some (errors.New errNotQualityGate))
    (modify (QualityGate_SetConditions xpv1.Creating);;
     cr ← get;
     let qualityGateCreateOptions :=
       instance.GenerateQualityGateCreateOptions (gs_ForProvider (g_Spec cr)) in
     '(qualityGate, err) ← remote (CallCreate qualityGateCreateOptions)
                             (instance.Create (qualityGatesClient c)
                                qualityGateCreateOptions);
     match err with
     | Some _ => mret (ExternalCreation_zero, errors.Wrap err errCreateQualityGate)
     | None =>
         qualityGate ← eval (deref qualityGate);
         modify (λ cr, QualityGate_withObjectMeta
                         (meta.SetExternalName (g_ObjectMeta cr) (created_ID qualityGate))
                         cr);;
         cr ← get;
         match gp_Default (gs_ForProvider (g_Spec cr)) with
         | Some true =>
             let opt := {| setdefaultopt_Name := metav1.Name (g_ObjectMeta cr) |} in
             err ← remote (CallSetAsDefault opt)
                     (instance.SetAsDefault (qualityGatesClient c) opt);
             match err with
             | Some _ =>
                 mret (ExternalCreation_zero, errors.Wrap err errDefaultQualityGate)
             | None => mret (ExternalCreation_zero, None)
             end
         | _ => mret (ExternalCreation_zero, None)
         end
     end).

(** The tail of [Update]: the default flag is asserted again whenever the
    spec asks for it. *)
Definition Update_setDefault (c : external)
    : M (World Srv QualityGate) (ExternalUpdate * option errors.error) :=
  cr ← get;
  match gp_Default (gs_ForProvider (g_Spec cr)) with
  | Some true =>
      let opt := {| setdefaultopt_Name := gp_Name (gs_ForProvider (g_Spec cr)) |} in
      err ← remote (CallSetAsDefault opt)
              (instance.SetAsDefault (qualityGatesClient c) opt);
      match err with
      | Some _ => mret (ExternalUpdate_zero, errors.Wrap err errDefaultQualityGate)
      | None => mret (ExternalUpdate_zero, None)
      end
  | _ => mret (ExternalUpdate_zero, None)
  end.

Definition Update (c : external)
    : M (World Srv Managed) (ExternalUpdate * option errors.error) :=
  asserting asQualityGate ManagedQualityGate
    (ExternalUpdate_zero, Some (errors.New errNotQualityGate))
    (cr ← get;
     let externalName := meta.GetExternalName (g_ObjectMeta cr) in
     if bool_decide (externalName = "")
     then mret (ExternalUpdate_zero,
                Some (fmt.Errorf "external name is not set for Quality Gate "
                        (metav1.Name (g_ObjectMeta cr))))
     else
       if bool_decide (gp_Name (gs_ForProvider (g_Spec cr)) ≠ externalName)
       then
         let opt := {| renameopt_CurrentName := externalName;
                       renameopt_Name := gp_Name (gs_ForProvider (g_Spec cr)) |} in
         err ← remote (CallRename opt) (instance.Rename (qualityGatesClient c) opt);
         match err with
         | Some _ => mret (ExternalUpdate_zero, errors.Wrap err errUpdateQualityGate)
         | None =>
             modify (λ cr, QualityGate_withObjectMeta
                             (meta.SetExternalName (g_ObjectMeta cr)
                                (gp_Name (gs_ForProvider (g_Spec cr))))
                             cr);;
             Update_setDefault c
         end
       else Update_setDefault c).

Definition Delete (c : external)
    : M (World Srv Managed) (ExternalDelete * option errors.error) :=
  asserting asQualityGate ManagedQualityGate
    (ExternalDelete_zero, Some (errors.New errNotQualityGate))
    (modify (QualityGate_SetConditions xpv1.Deleting);;
     cr ← get;
     let externalName := meta.GetExternalName (g_ObjectMeta cr) in
     if bool_decide (externalName = "")
     then mret (ExternalDelete_zero, None)
     else
       let opt := {| destroyopt_Name := metav1.Name (g_ObjectMeta cr) |} in
       err ← remote (CallDestroy opt) (instance.Destroy (qualityGatesClient c) opt);
       match err with
       | Some _ => mret (ExternalDelete_zero, errors.Wrap err errDeleteQualityGate)
       | None => mret (ExternalDelete_zero, None)
       end).

Definition Disconnect (c : external) : option errors.error := None.

End Controller.

End qualitygate.

(** ** Controller qualitygatecondition *)

Module qualitygatecondition.

Import sonargo v1alpha1 managed.

Definition errNotQualityGateCondition : string :=
  "managed resource is not a QualityGateCondition custom resource".
Definition errCreateQualityGateCondition : string :=
  "cannot create SonarQube Quality Gate Condition".
Definition errUpdateQualityGateCondition : string :=
  "cannot update SonarQube Quality Gate Condition".
Definition errDeleteQualityGateCondition : string :=
  "cannot delete SonarQube Quality Gate Condition".
Definition errShowQualityGateCondition : string :=
  "cannot get SonarQube Quality Gate Condition".

Section Controller.

Context `{helpers.Helpers}.
Context {Srv : Type}.

(** The [external] client of the controller. *)
Record external : Type := {
  qualityGatesClient : instance.QualityGatesClient Srv
}.

Definition Observe (c : external)
    : M (World Srv Managed) (ExternalObservation * option errors.error) :=
  asserting asQualityGateCondition ManagedQualityGateCondition
    (ExternalObservation_zero, Some (errors.New errNotQualityGateCondition))
    (cr ← get;
     let externalName := meta.GetExternalName (c_ObjectMeta cr) in
     if bool_decide (externalName = "")
     then mret ({| ResourceExists := false;
                   ResourceUpToDate := false;
                   ResourceLateInitialized := false |}, None)
     else
       let opt := {| showopt_Name := externalName |} in
       '(qualityGate, err) ← remote (CallShow opt)
                               (instance.Show (qualityGatesClient c) opt);
       match err with
       | Some _ =>
           mret ({| ResourceExists := false;
                    ResourceUpToDate := false;
                    ResourceLateInitialized := false |},
                 errors.Wrap err errShowQualityGateCondition)
       | None =>
           qualityGate ← eval (deref qualityGate);
           let '(observation, err) :=
             instance.FindQualityGateConditionObservation externalName
               (show_Conditions qualityGate) in
           match err with
           | Some _ =>
               mret ({| ResourceExists := false;
                        ResourceUpToDate := false;
                        ResourceLateInitialized := false |},
                     errors.Wrap err errShowQualityGateCondition)
           | None =>
               modify (QualityGateCondition_withAtProvider observation);;
               modify (QualityGateCondition_SetConditions xpv1.Available);;
               cr ← get;
               let current := cs_ForProvider (c_Spec cr) in
               modify (QualityGateCondition_withForProvider
                         (default current
                            (instance.LateInitializeQualityGateCondition
                               (Some current) (Some (cst_AtProvider (c_Status cr))))));;
               cr ← get;
               mret ({| ResourceExists := true;
                        ResourceUpToDate :=
                          instance.IsQualityGateConditionUpToDate
                            (Some (cs_ForProvider (c_Spec cr)))
                            (Some (cst_AtProvider (c_Status cr)));
                        ResourceLateInitialized :=
                          negb (bool_decide (current = cs_ForProvider (c_Spec cr))) |},
                     None)
           end
       end).

Definition Create (c : external)
    : M (World Srv Managed) (ExternalCreation * option errors.error) :=
  asserting asQualityGateCondition ManagedQualityGateCondition
    (ExternalCreation_zero, Some (errors.New errNotQualityGateCondition))
    (modify (QualityGateCondition_SetConditions xpv1.Creating);;
     cr ← get;
     qualityGateConditionCreateOptions ←
       eval (instance.GenerateCreateQualityGateConditionOption
               (cs_ForProvider (c_Spec cr)));
     '(qualityGateCondition, err) ←
       remote (CallCreateCondition qualityGateConditionCreateOptions)
         (instance.CreateCondition (qualityGatesClient c)
            qualityGateConditionCreateOptions);
     match err with
     | Some _ =>
         mret (ExternalCreation_zero, errors.Wrap err errCreateQualityGateCondition)
     | None =>
         qualityGateCondition ← eval (deref qualityGateCondition);
         modify (λ cr, QualityGateCondition_withObjectMeta
                         (meta.SetExternalName (c_ObjectMeta cr)
                            (createdcond_ID qualityGateCondition))
                         cr);;
         mret (ExternalCreation_zero, None)
     end).

Definition Update (c : external)
    : M (World Srv Managed) (ExternalUpdate * option errors.error) :=
  asserting asQualityGateCondition ManagedQualityGateCondition
    (ExternalUpdate_zero, Some (errors.New errNotQualityGateCondition))
    (cr ← get;
     let externalName := meta.GetExternalName (c_ObjectMeta cr) in
     if bool_decide (externalName = "")
     then mret (ExternalUpdate_zero,
                Some (fmt.Errorf "external name is not set for Quality Gate Condition "
                        (metav1.Name (c_ObjectMeta cr))))
     else
       let qualityGateConditionUpdateOptions :=
         instance.GenerateUpdateQualityGateConditionOption externalName
           (cs_ForProvider (c_Spec cr)) in
       err ← remote (CallUpdateCondition qualityGateConditionUpdateOptions)
               (instance.UpdateCondition (qualityGatesClient c)
                  qualityGateConditionUpdateOptions);
       match err with
       | Some _ =>
           mret (ExternalUpdate_zero, errors.Wrap err errUpdateQualityGateCondition)
       | None => mret (ExternalUpdate_zero, None)
       end).

Definition Delete (c : external)
    : M (World Srv Managed) (ExternalDelete * option errors.error) :=
  asserting asQualityGateCondition ManagedQualityGateCondition
    (ExternalDelete_zero, Some (errors.New errNotQualityGateCondition))
    (modify (QualityGateCondition_SetConditions xpv1.Deleting);;
     cr ← get;
     let externalName := meta.GetExternalName (c_ObjectMeta cr) in
     if bool_decide (externalName = "")
     then mret (ExternalDelete_zero, None)
     else
       let opt := instance.GenerateDeleteQualityGateConditionOption externalName in
       err ← remote (CallDeleteCondition opt)
               (instance.DeleteCondition (qualityGatesClient c) opt);
       match err with
       | Some _ =>
           mret (ExternalDelete_zero, errors.Wrap err errDeleteQualityGateCondition)
       | None => mret (ExternalDelete_zero, None)
       end).

Definition Disconnect (c : external) : option errors.error := None.

End Controller.

End qualitygatecondition.

(** ** Test doubles

    Clients in the manner of the mock of the controller tests: every
    method is a function of its option struct alone, and the server has no
    state. *)

Module fake.

Import sonargo.

Record MockQualityGatesClient : Type := {
  CreateFn : QualitygatesCreateOption →
             option QualitygatesCreateObject * option errors.error;
  CreateConditionFn : QualitygatesCreateConditionOption →
             option QualitygatesCreateConditionObject * option errors.error;
  DeleteConditionFn : QualitygatesDeleteConditionOption → option errors.error;
  DestroyFn : QualitygatesDestroyOption → option errors.error;
  RenameFn : QualitygatesRenameOption → option errors.error;
  SetAsDefaultFn : QualitygatesSetAsDefaultOption → option errors.error;
  ShowFn : QualitygatesShowOption →
           option QualitygatesShowObject * option errors.error;
  UpdateConditionFn : QualitygatesUpdateConditionOption → option errors.error
}.

Definition client (m : MockQualityGatesClient) : instance.QualityGatesClient unit :=
  {| instance.Create := λ opt srv, (CreateFn m opt, srv);
     instance.CreateCondition := λ opt srv, (CreateConditionFn m opt, srv);
     instance.DeleteCondition := λ opt srv, (DeleteConditionFn m opt, srv);
     instance.Destroy := λ opt srv, (DestroyFn m opt, srv);
     instance.Rename := λ opt srv, (RenameFn m opt, srv);
     instance.SetAsDefault := λ opt srv, (SetAsDefaultFn m opt, srv);
     instance.Show := λ opt srv, (ShowFn m opt, srv);
     instance.UpdateCondition := λ opt srv, (UpdateConditionFn m opt, srv) |}.

Definition unexpected : errors.error := errors.New "unexpected call".

(** A mock none of whose methods is expected to be called. *)
Definition noCalls : MockQualityGatesClient :=
  {| CreateFn := λ _, (None, Some unexpected);
     CreateConditionFn := λ _, (None, Some unexpected);
     DeleteConditionFn := λ _, Some unexpected;
     DestroyFn := λ _, Some unexpected;
     RenameFn := λ _, Some unexpected;
     SetAsDefaultFn := λ _, Some unexpected;
     ShowFn := λ _, (None, Some unexpected);
     UpdateConditionFn := λ _, Some unexpected |}.

Definition withCreateFn f (m : MockQualityGatesClient) : MockQualityGatesClient :=
  {| CreateFn := f;
     CreateConditionFn := CreateConditionFn m;
     DeleteConditionFn := DeleteConditionFn m;
     DestroyFn := DestroyFn m;
     RenameFn := RenameFn m;
     SetAsDefaultFn := SetAsDefaultFn m;
     ShowFn := ShowFn m;
     UpdateConditionFn := UpdateConditionFn m |}.

Definition withCreateConditionFn f (m : MockQualityGatesClient) : MockQualityGatesClient :=
  {| CreateFn := CreateFn m;
     CreateConditionFn := f;
     DeleteConditionFn := DeleteConditionFn m;
     DestroyFn := DestroyFn m;
     RenameFn := RenameFn m;
     SetAsDefaultFn := SetAsDefaultFn m;
     ShowFn := ShowFn m;
     UpdateConditionFn := UpdateConditionFn m |}.

Definition withDeleteConditionFn f (m : MockQualityGatesClient) : MockQualityGatesClient :=
  {| CreateFn := CreateFn m;
     CreateConditionFn := CreateConditionFn m;
     DeleteConditionFn := f;
     DestroyFn := DestroyFn m;
     RenameFn := RenameFn m;
     SetAsDefaultFn := SetAsDefaultFn m;
     ShowFn := ShowFn m;
     UpdateConditionFn := UpdateConditionFn m |}.

Definition withDestroyFn f (m : MockQualityGatesClient) : MockQualityGatesClient :=
  {| CreateFn := CreateFn m;
     CreateConditionFn := CreateConditionFn m;
     DeleteConditionFn := DeleteConditionFn m;
     DestroyFn := f;
     RenameFn := RenameFn m;
     SetAsDefaultFn := SetAsDefaultFn m;
     ShowFn := ShowFn m;
     UpdateConditionFn := UpdateConditionFn m |}.

Definition withSetAsDefaultFn f (m : MockQualityGatesClient) : MockQualityGatesClient :=
  {| CreateFn := CreateFn m;
     CreateConditionFn := CreateConditionFn m;
     DeleteConditionFn := DeleteConditionFn m;
     DestroyFn := DestroyFn m;
     RenameFn := RenameFn m;
     SetAsDefaultFn := f;
     ShowFn := ShowFn m;
     UpdateConditionFn := UpdateConditionFn m |}.

Definition withShowFn f (m : MockQualityGatesClient) : MockQualityGatesClient :=
  {| CreateFn := CreateFn m;
     CreateConditionFn := CreateConditionFn m;
     DeleteConditionFn := DeleteConditionFn m;
     DestroyFn := DestroyFn m;
     RenameFn := RenameFn m;
     SetAsDefaultFn := SetAsDefaultFn m;
     ShowFn := f;
     UpdateConditionFn := UpdateConditionFn m |}.

Definition withRenameFn f (m : MockQualityGatesClient) : MockQualityGatesClient :=
  {| CreateFn := CreateFn m;
     CreateConditionFn := CreateConditionFn m;
     DeleteConditionFn := DeleteConditionFn m;
     DestroyFn := DestroyFn m;
     RenameFn := f;
     SetAsDefaultFn := SetAsDefaultFn m;
     ShowFn := ShowFn m;
     UpdateConditionFn := UpdateConditionFn m |}.

End fake.

(** ** Inputs of the test suites *)

Module testdata.

Import sonargo v1alpha1 managed.

Definition noActions : QualityGatesActions :=
  {| act_AssociateProjects := false; act_Copy := false; act_Delegate := false;
     act_Delete := false; act_ManageAiCodeAssurance := false;
     act_ManageConditions := false; act_Rename := false; act_SetAsDefault := false |}.

(** The zero [QualityGateStatus]. *)
Definition noGateStatus : QualityGateStatus :=
  {| gst_Conditions := [];
     gst_AtProvider :=
       {| go_Actions := noActions; go_CaycStatus := ""; go_Conditions := [];
          go_IsAiCodeSupported := false; go_IsBuiltIn := false;
          go_IsDefault := false; go_Name := "" |} |}.

(** The zero [QualityGateConditionStatus]. *)
Definition noConditionStatus : QualityGateConditionStatus :=
  {| cst_Conditions := []; cst_AtProvider := QualityGateConditionObservation_zero |}.

(** A gate with Kubernetes name [name], the given spec, and the external
    name annotation when [externalName] is given. *)
Definition gate (name : string) (spec : QualityGateParameters)
    (externalName : option string) : QualityGate :=
  {| g_ObjectMeta :=
       {| metav1.Name := name;
          metav1.Annotations :=
            match externalName with
            | Some e => {[ meta.AnnotationKeyExternalName := e ]}
            | None => ∅
            end |};
     g_Spec := {| gs_ForProvider := spec |};
     g_Status := noGateStatus |}.

Definition condition (name : string) (spec : QualityGateConditionParameters)
    (externalName : option string) : QualityGateCondition :=
  {| c_ObjectMeta :=
       {| metav1.Name := name;
          metav1.Annotations :=
            match externalName with
            | Some e => {[ meta.AnnotationKeyExternalName := e ]}
            | None => ∅
            end |};
     c_Spec := {| cs_ForProvider := spec |};
     c_Status := noConditionStatus |}.

(** The world a test starts in. *)
Definition start (mg : Managed) : World unit Managed :=
  {| object := mg; server := (); calls := [] |}.

(** The name under which the remote system knows the object afterwards. *)
Definition externalNameOf (mg : Managed) : string :=
  match mg with
  | ManagedQualityGate cr => meta.GetExternalName (g_ObjectMeta cr)
  | ManagedQualityGateCondition cr => meta.GetExternalName (c_ObjectMeta cr)
  | ManagedOther o => meta.GetExternalName o
  end.

(** TestCreate, case CreateWithDefaultTrue of the gate controller, in the
    variant whose mock checks the name handed to SetAsDefault. *)
Definition createWithDefaultTrue_client : fake.MockQualityGatesClient :=
  fake.withCreateFn
    (λ opt, (Some {| created_ID := "gate-123"; created_Name := "my-sonar-gate" |}, None))
    (fake.withSetAsDefaultFn
       (λ opt,
          if bool_decide (setdefaultopt_Name opt ≠ "my-sonar-gate")
          then Some (errors.New ("expected SonarQube gate name but got: "
                                 +:+ setdefaultopt_Name opt))
          else None)
       fake.noCalls).

Definition createWithDefaultTrue_mg : Managed :=
  ManagedQualityGate
    (gate "test-gate" {| gp_Name := "my-sonar-gate"; gp_Default := Some true |} None).

(** TestCreateSetsExternalNameToSonarQubeName. *)
Definition createSetsExternalName_client : fake.MockQualityGatesClient :=
  fake.withCreateFn
    (λ opt, (Some {| created_ID := "generated-id-12345";
                     created_Name := "ActualSonarQubeName" |}, None))
    fake.noCalls.

Definition createSetsExternalName_mg : Managed :=
  ManagedQualityGate
    (gate "k8s-resource-name"
       {| gp_Name := "ActualSonarQubeName"; gp_Default := None |} None).

(** TestDelete, case SuccessfulDelete of the gate controller, in the
    variant whose mock checks the name handed to Destroy; the desired name
    is filled in. *)
Definition successfulDelete_client : fake.MockQualityGatesClient :=
  fake.withDestroyFn
    (λ opt,
       if bool_decide (destroyopt_Name opt ≠ "my-sonar-gate")
       then Some (errors.New ("expected external name 'my-sonar-gate' but got: "
                              +:+ destroyopt_Name opt))
       else None)
    fake.noCalls.

Definition successfulDelete_mg : Managed :=
  ManagedQualityGate
    (gate "k8s-resource-name" {| gp_Name := "my-sonar-gate"; gp_Default := None |}
       (Some "my-sonar-gate")).

(** TestObserve, case ConditionNotFoundInQualityGate of the condition
    controller. *)
Definition conditionNotFound_client : fake.MockQualityGatesClient :=
  fake.withShowFn
    (λ opt,
       (Some {| show_Actions :=
                  {| sub1_AssociateProjects := false; sub1_Copy := false;
                     sub1_Delegate := false; sub1_Delete := false;
                     sub1_ManageAiCodeAssurance := false;
                     sub1_ManageConditions := false; sub1_Rename := false;
                     sub1_SetAsDefault := false |};
                show_CaycStatus := "";
                show_Conditions := [];
                show_IsAiCodeSupported := false;
                show_IsBuiltIn := false;
                show_IsDefault := false;
                show_Name := "test-gate" |}, None))
    fake.noCalls.

Definition conditionNotFound_mg : Managed :=
  ManagedQualityGateCondition
    (condition "test-condition"
       {| cp_QualityGateName := Some "test-gate";
          cp_QualityGateRef := None;
          cp_QualityGateSelector := None;
          cp_Error := "80";
          cp_Metric := "coverage";
          cp_Op := None |}
       (Some "cond-123")).

(** TestObserve, case ShowFails of the gate controller. *)
Definition showFails_client : fake.MockQualityGatesClient :=
  fake.withShowFn (λ opt, (None, Some (errors.New "api error"))) fake.noCalls.

Definition showFails_mg : Managed :=
  ManagedQualityGate
    (gate "test-gate" {| gp_Name := "test-gate"; gp_Default := None |}
       (Some "test-gate")).

(** The object that Show returns in the Observe tests. *)
Definition shown (name : string) (isDefault : bool)
    (conditions : list QualitygatesShowObject_sub2) : QualitygatesShowObject :=
  {| show_Actions :=
       {| sub1_AssociateProjects := false; sub1_Copy := false;
          sub1_Delegate := false; sub1_Delete := false;
          sub1_ManageAiCodeAssurance := false;
          sub1_ManageConditions := false; sub1_Rename := false;
          sub1_SetAsDefault := false |};
     show_CaycStatus := "compliant";
     show_Conditions := conditions;
     show_IsAiCodeSupported := false;
     show_IsBuiltIn := false;
     show_IsDefault := isDefault;
     show_Name := name |}.

(** TestObserve, case LateInitializeDefault of the gate controller. *)
Definition lateInitializeDefault_client : fake.MockQualityGatesClient :=
  fake.withShowFn (λ opt, (Some (shown "test-gate" true []), None)) fake.noCalls.

Definition lateInitializeDefault_mg : Managed :=
  ManagedQualityGate
    (gate "test-gate" {| gp_Name := "test-gate"; gp_Default := None |}
       (Some "test-gate")).

(** TestUpdate, case RenameWhenNamesDiffer of the gate controller. *)
Definition renameWhenNamesDiffer_client : fake.MockQualityGatesClient :=
  fake.withRenameFn
    (λ opt,
       if bool_decide (renameopt_CurrentName opt ≠ "old-name")
          || bool_decide (renameopt_Name opt ≠ "new-name")
       then Some (errors.New "unexpected rename params")
       else None)
    fake.noCalls.

Definition renameWhenNamesDiffer_mg : Managed :=
  ManagedQualityGate
    (gate "test-gate" {| gp_Name := "new-name"; gp_Default := None |}
       (Some "old-name")).

(** TestObserve, case SuccessfulObserveResourceExists of the condition
    controller. *)
Definition conditionExists_client : fake.MockQualityGatesClient :=
  fake.withShowFn
    (λ opt,
       (Some (shown "test-gate" false
                [{| sub2_Error := "80"; sub2_ID := "cond-123";
                    sub2_Metric := "coverage"; sub2_Op := "LT" |}]), None))
    fake.noCalls.

Definition conditionExists_mg : Managed :=
  ManagedQualityGateCondition
    (condition "test-condition"
       {| cp_QualityGateName := Some "test-gate";
          cp_QualityGateRef := None;
          cp_QualityGateSelector := None;
          cp_Error := "80";
          cp_Metric := "coverage";
          cp_Op := Some "LT" |}
       (Some "cond-123")).

End testdata.

(** ** Reference resolution (package v1alpha1, referencers.go) *)

Module reference.

Import v1alpha1.

Definition errResolveQualityGateRef : string :=
  "cannot resolve qualityGateName reference".

(** [reference.NamespacedResolutionRequest], without the [To] and
    [Extract] fields, which are the same in every request. *)
Record NamespacedResolutionRequest : Type := {
  req_CurrentValue : string;
  req_Reference : option xpv1.NamespacedReference;
  req_Selector : option xpv1.NamespacedSelector
}.

Record NamespacedResolutionResponse : Type := {
  rsp_ResolvedValue : string;
  rsp_ResolvedReference : option xpv1.NamespacedReference
}.

(** The resolver [reference.NewAPINamespacedResolver(c, mg)] of
    crossplane-runtime: it is built from the cluster reader and from the
    resource, only reads, and answers a request with a response and an
    error. *)
Definition APINamespacedResolver : Type :=
  QualityGateCondition →
  NamespacedResolutionRequest → NamespacedResolutionResponse * option errors.error.

(** [ResolveReferences]: the error it returns and the resource
    afterwards.  The request is built before the resolver is called, and
    building it reads the gate name through the [QualityGateName]
    pointer. *)
Definition ResolveReferences (NewAPINamespacedResolver : APINamespacedResolver)
    (mg : QualityGateCondition) : panicking (option errors.error * QualityGateCondition) :=
  let r := NewAPINamespacedResolver mg in
  match deref (cp_QualityGateName (cs_ForProvider (c_Spec mg))) with
  | Panic reason => Panic reason
  | Normal currentValue =>
      let '(rsp, err) :=
        r {| req_CurrentValue := currentValue;
             req_Reference := cp_QualityGateRef (cs_ForProvider (c_Spec mg));
             req_Selector := cp_QualityGateSelector (cs_ForProvider (c_Spec mg)) |} in
      match err with
      | Some _ => Normal (errors.Wrap err errResolveQualityGateRef, mg)
      | None =>
          let resolvedName := Some (rsp_ResolvedValue rsp) in
          let params := cs_ForProvider (c_Spec mg) in
          Normal (None,
                  QualityGateCondition_withForProvider
                    {| cp_QualityGateName := resolvedName;
                       cp_QualityGateRef := rsp_ResolvedReference rsp;
                       cp_QualityGateSelector := cp_QualityGateSelector params;
                       cp_Error := cp_Error params;
                       cp_Metric := cp_Metric params;
                       cp_Op := cp_Op params |}
                    mg)
      end
  end.

End reference.

(** ** Package common: the configuration of the SonarQube client *)

Module common.

Definition ErrSecretNotFound : string := "Cannot find referenced secret".
Definition ErrSecretKeyNotFound : string := "Cannot find key in referenced secret".
Definition ErrSecretSelectorNil : string := "Secret selector is nil".

(** [types.NamespacedName] *)
Record NamespacedName : Type := {
  nn_Namespace : string;
  nn_Name : string
}.

(** [xpv1.SecretKeySelector] and [xpv1.LocalSecretKeySelector] *)
Record SecretKeySelector : Type := {
  sks_Name : string;
  sks_Namespace : string;
  sks_Key : string
}.

Record LocalSecretKeySelector : Type := {
  lsks_Name : string;
  lsks_Key : string
}.

(** [corev1.Secret]: its data.  A value is a byte slice, which may be
    nil; the bytes are kept as the string they convert to. *)
Record Secret : Type := {
  secret_Data : gmap string (option string)
}.

(** [xpv1.ProviderConfigReference] *)
Record ProviderConfigReference : Type := {
  pcr_Kind : string;
  pcr_Name : string
}.

(** The spec of a ProviderConfig or ClusterProviderConfig (package
    apis/v1alpha1), with the fields that [buildConfigFromSpec] reads. *)
Record ProviderConfigSpec : Type := {
  pcs_Credentials_Source : string;
  pcs_Credentials_SecretRef : option SecretKeySelector;
  pcs_BaseURL : string;
  pcs_InsecureSkipVerify : option bool
}.

Definition CredentialsSourceSecret : string := "Secret".

(** A [resource.ModernManaged], as far as this package looks at it: what
    its methods [GetNamespace] and [GetProviderConfigReference] return. *)
Record ModernManaged : Type := {
  mm_Namespace : string;
  mm_ProviderConfigReference : option ProviderConfigReference
}.

(** What [GetConfig] can be handed as a [resource.Managed]: a resource
    that is a [resource.ModernManaged], or one that is not. *)
Inductive Managed : Type :=
  | Modern (m : ModernManaged)
  | Other (namespace : string).

Definition GetNamespace (m : Managed) : string :=
  match m with
  | Modern m => mm_Namespace m
  | Other namespace => namespace
  end.

(** [Config] provides the configuration of the SonarQube client. *)
Record Config : Type := {
  Token : string;
  BaseURL : string;
  InsecureSkipVerify : bool
}.

(** The Kubernetes client, over an arbitrary state of the cluster.  [Get]
    answers with the object or with an error and leaves the cluster as it
    is; [Track] stands for the [Track] method of the usage tracker that
    [resource.NewProviderConfigUsageTracker] builds on the client. *)
Record Client (K : Type) : Type := {
  GetSecret : NamespacedName → K → errors.error + Secret;
  GetProviderConfig : NamespacedName → K → errors.error + ProviderConfigSpec;
  GetClusterProviderConfig : NamespacedName → K → errors.error + ProviderConfigSpec;
  Track : Managed → K → option errors.error * K
}.

Arguments GetSecret {K} _ _ _.
Arguments GetProviderConfig {K} _ _ _.
Arguments GetClusterProviderConfig {K} _ _ _.
Arguments Track {K} _ _ _.

(** An access to the cluster. *)
Inductive Access : Type :=
  | AccessSecret (key : NamespacedName)
  | AccessProviderConfig (key : NamespacedName)
  | AccessClusterProviderConfig (key : NamespacedName)
  | AccessTrack (m : Managed).

(** The cluster, and the accesses made to it so far. *)
Record Cluster (K : Type) : Type := {
  kube : K;
  accesses : list Access
}.

Arguments kube {K} _.
Arguments accesses {K} _.

Section WithCluster.

Context {K : Type}.

(** [client.Get], logged. *)
Definition get {A : Type} (access : Access) (method : K → errors.error + A)
    : managed.M (Cluster K) (errors.error + A) :=
  λ w, (Normal (method (kube w)),
        {| kube := kube w; accesses := accesses w ++ [access] |}).

(** [Track], logged. *)
Definition track (m : Managed) (method : K → option errors.error * K)
    : managed.M (Cluster K) (option errors.error) :=
  λ w, let '(err, k) := method (kube w) in
       (Normal err, {| kube := k; accesses := accesses w ++ [AccessTrack m] |}).

(** An expression that may panic. *)
Definition eval {A : Type} (e : panicking A) : managed.M (Cluster K) A := λ w, (e, w).

(** [GetTokenValueFromSecret] retrieves the token value from the
    referenced secret. *)
Definition GetTokenValueFromSecret (client : Client K) (m : Managed)
    (selector : option SecretKeySelector)
    : managed.M (Cluster K) (option string * option errors.error) :=
  match selector with
  | None => mret (None, Some (errors.New ErrSecretSelectorNil))
  | Some selector =>
      let key := {| nn_Namespace := sks_Namespace selector;
                    nn_Name := sks_Name selector |} in
      got ← get (AccessSecret key) (GetSecret client key);
      match got with
      | inl err => mret (None, errors.Wrap (Some err) ErrSecretNotFound)
      | inr secret =>
          let value := default None (secret_Data secret !! sks_Key selector) in
          match value with
          | None => mret (None, Some (errors.New ErrSecretKeyNotFound))
          | Some data => mret (Some data, None)
          end
      end
  end.

(** [GetTokenValueFromLocalSecret] retrieves the token value from a secret
    in the namespace of the managed resource. *)
Definition GetTokenValueFromLocalSecret (client : Client K) (m : Managed)
    (l : option LocalSecretKeySelector)
    : managed.M (Cluster K) (option string * option errors.error) :=
  match l with
  | None => mret (None, Some (errors.New ErrSecretSelectorNil))
  | Some l =>
      GetTokenValueFromSecret client m
        (Some {| sks_Name := lsks_Name l;
                 sks_Namespace := GetNamespace m;
                 sks_Key := lsks_Key l |})
  end.

(** [buildConfigFromSpec] builds a [Config] from the spec of a provider
    config. *)
Definition buildConfigFromSpec (kubeClient : Client K)
    (managedResource : ModernManaged) (spec : ProviderConfigSpec)
    : managed.M (Cluster K) (option Config * option errors.error) :=
  err ← track (Modern managedResource) (Track kubeClient (Modern managedResource));
  match err with
  | Some _ => mret (None, errors.Wrap err "cannot track ProviderConfig usage")
  | None =>
      let s := pcs_Credentials_Source spec in
      if bool_decide (s = CredentialsSourceSecret)
      then
        match pcs_Credentials_SecretRef spec with
        | None => mret (None, Some (errors.New "no credentials secret referenced"))
        | Some _ =>
            '(token, err) ← GetTokenValueFromSecret kubeClient (Modern managedResource)
                              (pcs_Credentials_SecretRef spec);
            match err with
            | Some _ => mret (None, err)
            | None =>
                match token with
                | None => mret (None, Some (errors.New "credentials secret key is empty"))
                | Some t =>
                    if bool_decide (t = "")
                    then mret (None, Some (errors.New "credentials secret key is empty"))
                    else mret (Some {| BaseURL := pcs_BaseURL spec;
                                       Token := t;
                                       InsecureSkipVerify :=
                                         default false (pcs_InsecureSkipVerify spec) |},
                               None)
                end
            end
        end
      else
        mret (None,
              Some (errors.New ("credentials source " +:+ s
                                +:+ " is not currently supported")))
  end.

(** [UseProviderConfig] uses the provider config reference of the
    resource; the reference is read through its pointer. *)
Definition UseProviderConfig (kubeClient : Client K) (managedResource : ModernManaged)
    : managed.M (Cluster K) (option Config * option errors.error) :=
  providerConfigRef ← eval (deref (mm_ProviderConfigReference managedResource));
  if bool_decide (pcr_Kind providerConfigRef = "ClusterProviderConfig")
  then
    let key := {| nn_Namespace := ""; nn_Name := pcr_Name providerConfigRef |} in
    got ← get (AccessClusterProviderConfig key) (GetClusterProviderConfig kubeClient key);
    match got with
    | inl err =>
        mret (None, errors.Wrap (Some err) "cannot get referenced ClusterProviderConfig")
    | inr spec => buildConfigFromSpec kubeClient managedResource spec
    end
  else
    let key := {| nn_Namespace := mm_Namespace managedResource;
                  nn_Name := pcr_Name providerConfigRef |} in
    got ← get (AccessProviderConfig key) (GetProviderConfig kubeClient key);
    match got with
    | inl err => mret (None, errors.Wrap (Some err) "cannot get referenced ProviderConfig")
    | inr spec => buildConfigFromSpec kubeClient managedResource spec
    end.

(** [GetConfig] constructs the [Config] with which the SonarQube client
    authenticates. *)
Definition GetConfig (kubeClient : Client K) (managedResource : Managed)
    : managed.M (Cluster K) (option Config * option errors.error) :=
  match managedResource with
  | Modern managedResourceCast =>
      match mm_ProviderConfigReference managedResourceCast with
      | Some _ => UseProviderConfig kubeClient managedResourceCast
      | None => mret (None, Some (errors.New "providerConfigRef is not given"))
      end
  | Other _ => mret (None, Some (errors.New "unknown managed resource type"))
  end.

End WithCluster.

End common.

(** ** Connecting: the [Connect] methods of the two controllers *)

Module connect.

Import v1alpha1 managed.

Definition errTrackPCUsage : string := "cannot track ProviderConfig usage".
Definition errGetPC : string := "cannot get ProviderConfig".

Section Connectors.

Context {K Srv : Type}.

(** The generated methods that make the two resources a
    [resource.ModernManaged]: they read the namespace and the provider
    config reference off the resource. *)
Context (gateAccessors : QualityGate → common.ModernManaged).
Context (conditionAccessors : QualityGateCondition → common.ModernManaged).

(** A connector produces an [ExternalClient] when its [Connect] method is
    called.  The two controllers declare the same struct.  [newServiceFn]
    is a Go function and may panic: the one that [Setup] puts there,
    [instance.NewQualityGatesClient], goes through [common.NewClient],
    which panics when the client library rejects the configuration. *)
Record connector : Type := {
  conn_kube : common.Client K;
  conn_usage : common.Managed → K → option errors.error * K;
  conn_newServiceFn : common.Config → panicking (instance.QualityGatesClient Srv)
}.

(** [Connect] of package qualitygate. *)
Definition ConnectQualityGate (c : connector) (mg : Managed)
    : M (common.Cluster K) (option (qualitygate.external (Srv := Srv))
                            * option errors.error) :=
  match asQualityGate mg with
  | None => mret (None, Some (errors.New qualitygate.errNotQualityGate))
  | Some cr =>
      let m := gateAccessors cr in
      err ← common.track (common.Modern m) (conn_usage c (common.Modern m));
      match err with
      | Some _ => mret (None, errors.Wrap err errTrackPCUsage)
      | None =>
          '(config, err) ← common.GetConfig (conn_kube c) (common.Modern m);
          match err, config with
          | None, Some config =>
              svc ← common.eval (conn_newServiceFn c config);
              mret (Some {| qualitygate.qualityGatesClient := svc |}, None)
          | _, _ => mret (None, errors.Wrap err errGetPC)
          end
      end
  end.

(** [Connect] of package qualitygatecondition. *)
Definition ConnectQualityGateCondition (c : connector) (mg : Managed)
    : M (common.Cluster K) (option (qualitygatecondition.external (Srv := Srv))
                            * option errors.error) :=
  match asQualityGateCondition mg with
  | None =>
      mret (None, Some (errors.New qualitygatecondition.errNotQualityGateCondition))
  | Some cr =>
      let m := conditionAccessors cr in
      err ← common.track (common.Modern m) (conn_usage c (common.Modern m));
      match err with
      | Some _ => mret (None, errors.Wrap err errTrackPCUsage)
      | None =>
          '(config, err) ← common.GetConfig (conn_kube c) (common.Modern m);
          match err, config with
          | None, Some config =>
              svc ← common.eval (conn_newServiceFn c config);
              mret (Some {| qualitygatecondition.qualityGatesClient := svc |}, None)
          | _, _ => mret (None, errors.Wrap err errGetPC)
          end
      end
  end.

End Connectors.

End connect.

(** The object metadata of a managed resource. *)
Definition ObjectMetaOf (mg : v1alpha1.Managed) : metav1.ObjectMeta :=
  match mg with
  | v1alpha1.ManagedQualityGate cr => v1alpha1.g_ObjectMeta cr
  | v1alpha1.ManagedQualityGateCondition cr => v1alpha1.c_ObjectMeta cr
  | v1alpha1.ManagedOther o => o
  end.

(** * Properties *)

(** ** The test suites, replayed

    Cases of the Go test suites that the embedding reproduces, with the
    helpers of the spec. *)

Section TestSuites.

Import sonargo v1alpha1 managed testdata.

(** TestObserve / LateInitializeDefault: the gate exists, is up to date,
    and [Default] was filled in from the observation. *)
Example test_Observe_LateInitializeDefault :
  let c := {| qualitygate.qualityGatesClient :=
                fake.client lateInitializeDefault_client |} in
  let r := qualitygate.Observe (H := helpers.spec_helpers) c
             (start lateInitializeDefault_mg) in
  fst r = Normal ({| ResourceExists := true;
                     ResourceUpToDate := true;
                     ResourceLateInitialized := true |}, None)
  ∧ (gp_Default ∘ gs_ForProvider ∘ g_Spec <$> asQualityGate (object (snd r)))
    = Some (Some true)
  ∧ calls (snd r) = [CallShow {| showopt_Name := "test-gate" |}].
Proof. by vm_compute. Qed.

(** TestObserve / ShowFailsReturnsError of the gate controller. *)
Example test_Observe_ShowFailsReturnsError :
  let c := {| qualitygate.qualityGatesClient := fake.client showFails_client |} in
  fst (qualitygate.Observe (H := helpers.spec_helpers) c (start showFails_mg))
  = Normal ({| ResourceExists := false;
               ResourceUpToDate := false;
               ResourceLateInitialized := false |},
            Some (errors.withMessage (errors.errorString "api error")
                    qualitygate.errShowQualityGate)).
Proof. by vm_compute. Qed.

(** TestUpdate / RenameWhenNamesDiffer: one Rename call from the external
    name to the desired name, after which the external name is the desired
    name. *)
Example test_Update_RenameWhenNamesDiffer :
  let c := {| qualitygate.qualityGatesClient :=
                fake.client renameWhenNamesDiffer_client |} in
  let r := qualitygate.Update c (start renameWhenNamesDiffer_mg) in
  fst r = Normal (ExternalUpdate_zero, None)
  ∧ calls (snd r)
    = [CallRename {| renameopt_CurrentName := "old-name";
                     renameopt_Name := "new-name" |}]
  ∧ externalNameOf (object (snd r)) = "new-name".
Proof. by vm_compute. Qed.

(** TestObserve / SuccessfulObserveResourceExists of the condition
    controller. *)
Example test_Observe_condition_exists :
  let c := {| qualitygatecondition.qualityGatesClient :=
                fake.client conditionExists_client |} in
  fst (qualitygatecondition.Observe (H := helpers.spec_helpers) c
         (start conditionExists_mg))
  = Normal ({| ResourceExists := true;
               ResourceUpToDate := true;
               ResourceLateInitialized := false |}, None).
Proof. by vm_compute. Qed.

(** TestIsQualityGateConditionUpToDate / DifferentErrorReturnsFalse. *)
Example test_IsQualityGateConditionUpToDate_DifferentError :
  instance.IsQualityGateConditionUpToDate (H := helpers.spec_helpers)
    (Some {| cp_QualityGateName := None; cp_QualityGateRef := None;
             cp_QualityGateSelector := None; cp_Error := "80";
             cp_Metric := "coverage"; cp_Op := Some "LT" |})
    (Some {| co_Error := "85"; co_ID := ""; co_Metric := "coverage";
             co_Op := "LT" |})
  = false.
Proof. reflexivity. Qed.

(** TestFindQualityGateConditionObservation / FoundSecondCondition. *)
Example test_Find_FoundSecondCondition :
  instance.FindQualityGateConditionObservation "2"
    [{| sub2_Error := "80"; sub2_ID := "1"; sub2_Metric := "coverage";
        sub2_Op := "LT" |};
     {| sub2_Error := "3"; sub2_ID := "2";
        sub2_Metric := "duplicated_lines_density"; sub2_Op := "GT" |}]
  = ({| co_Error := "3"; co_ID := "2"; co_Metric := "duplicated_lines_density";
        co_Op := "GT" |}, None).
Proof. reflexivity. Qed.

End TestSuites.

(** ** The identity lookup in a gate's condition list *)

Section FindProperties.

Import sonargo v1alpha1 instance.

Implicit Types (id : string) (condition : list QualitygatesShowObject_sub2).

Lemma Find_no_match id condition :
  Forall (λ c, sub2_ID c ≠ id) condition →
  FindQualityGateConditionObservation id condition
  = (QualityGateConditionObservation_zero, Some (errors.New errConditionNotFound)).
Proof.
  induction 1 as [|c rest Hc _ IH]; simpl; [done|].
  by rewrite bool_decide_eq_false_2.
Qed.

Lemma Find_first_match id before cond after :
  Forall (λ c, sub2_ID c ≠ id) before →
  sub2_ID cond = id →
  FindQualityGateConditionObservation id (before ++ cond :: after)
  = (GenerateQualityGateConditionObservation cond, None).
Proof.
  intros Hbefore Hcond.
  induction Hbefore as [|c rest Hc _ IH]; simpl.
  - by rewrite bool_decide_eq_true_2.
  - by rewrite bool_decide_eq_false_2.
Qed.

(** Every list either has a first element with the wanted ID or has none. *)
Lemma first_match_or_none id condition :
  (∃ before cond after,
      condition = before ++ cond :: after ∧
      Forall (λ c, sub2_ID c ≠ id) before ∧
      sub2_ID cond = id)
  ∨ Forall (λ c, sub2_ID c ≠ id) condition.
Proof.
  induction condition as [|c rest IH]; [by right|].
  destruct (decide (sub2_ID c = id)) as [Heq|Hne].
  - left. by exists [], c, rest.
  - destruct IH as [(before & cond & after & -> & Hbefore & Hcond)|Hnone].
    + left. exists (c :: before), cond, after. by repeat split; [constructor|].
    + right. by constructor.
Qed.

(** C10. For every id and every condition list,
    [FindQualityGateConditionObservation] returns the mapped observation of
    the first element, in list order, whose ID is the id, and no error; it
    returns the not-found error exactly when no element has that ID, which
    includes the empty list. *)
Theorem FindQualityGateConditionObservation_first_match id condition :
  ((∃ before cond after,
       condition = before ++ cond :: after ∧
       Forall (λ c, sub2_ID c ≠ id) before ∧
       sub2_ID cond = id ∧
       FindQualityGateConditionObservation id condition
       = (GenerateQualityGateConditionObservation cond, None))
   ∨ (Forall (λ c, sub2_ID c ≠ id) condition ∧
      FindQualityGateConditionObservation id condition
      = (QualityGateConditionObservation_zero, Some (errors.New errConditionNotFound))))
  ∧ (snd (FindQualityGateConditionObservation id condition)
     = Some (errors.New errConditionNotFound)
     ↔ Forall (λ c, sub2_ID c ≠ id) condition)
  ∧ FindQualityGateConditionObservation id []
    = (QualityGateConditionObservation_zero, Some (errors.New errConditionNotFound)).
Proof.
  split; [|split; [|done]].
  - destruct (first_match_or_none id condition)
      as [(before & cond & after & -> & Hbefore & Hcond)|Hnone].
    + left. exists before, cond, after.
      by rewrite Find_first_match.
    + right. by rewrite Find_no_match.
  - split.
    + destruct (first_match_or_none id condition)
        as [(before & cond & after & -> & Hbefore & Hcond)|Hnone]; [|done].
      by rewrite Find_first_match.
    + intros Hnone. by rewrite Find_no_match.
Qed.

End FindProperties.

(** ** The comparator *)

Section ComparatorProperties.

Import sonargo v1alpha1 instance.

(** C5. With the helper of the spec, the up-to-date comparator of either
    entity kind returns true when the desired specification is nil, false
    when it is not nil and the observation is nil, and otherwise true
    exactly when every set field of the specification equals its observed
    counterpart: the required strings are equal, and an optional field,
    when set, holds the observed literal. *)
Theorem IsUpToDate_iff_set_fields_match :
  (∀ O, IsQualityGateUpToDate (H := helpers.spec_helpers) None O = true)
  ∧ (∀ D, IsQualityGateUpToDate (H := helpers.spec_helpers) (Some D) None = false)
  ∧ (∀ D O,
       IsQualityGateUpToDate (H := helpers.spec_helpers) (Some D) (Some O) = true
       ↔ gp_Name D = go_Name O
         ∧ (∀ v, gp_Default D = Some v → v = go_IsDefault O))
  ∧ (∀ O, IsQualityGateConditionUpToDate (H := helpers.spec_helpers) None O = true)
  ∧ (∀ D, IsQualityGateConditionUpToDate (H := helpers.spec_helpers) (Some D) None
          = false)
  ∧ (∀ D O,
       IsQualityGateConditionUpToDate (H := helpers.spec_helpers) (Some D) (Some O)
       = true
       ↔ cp_Error D = co_Error O
         ∧ cp_Metric D = co_Metric O
         ∧ (∀ v, cp_Op D = Some v → v = co_Op O)).
Proof.
  repeat split; try done.
  - unfold IsQualityGateUpToDate in *. simpl in *.
    by case_bool_decide.
  - intros v Hv. unfold IsQualityGateUpToDate in *. simpl in *.
    case_bool_decide; [done|]. rewrite Hv in *. simpl in *.
    by case_bool_decide.
  - intros [Hname Hdefault]. unfold IsQualityGateUpToDate. simpl.
    rewrite bool_decide_eq_false_2; [|by intros ?].
    destruct (gp_Default D) as [v|]; simpl; [|done].
    by rewrite bool_decide_eq_true_2; [|apply Hdefault].
  - unfold IsQualityGateConditionUpToDate in *. simpl in *.
    by case_bool_decide.
  - unfold IsQualityGateConditionUpToDate in *. simpl in *.
    case_bool_decide; [done|].
    by case_bool_decide.
  - intros v Hv. unfold IsQualityGateConditionUpToDate in *. simpl in *.
    repeat (case_bool_decide; [done|]). rewrite Hv in *. simpl in *.
    by case_bool_decide.
  - intros (Herror & Hmetric & Hop). unfold IsQualityGateConditionUpToDate. simpl.
    rewrite !bool_decide_eq_false_2; [|by intros ?..].
    destruct (cp_Op D) as [v|]; simpl; [|done].
    by rewrite bool_decide_eq_true_2; [|apply Hop].
Qed.

End ComparatorProperties.

(** ** Late initialization *)

Section LateInitializationProperties.

Import sonargo v1alpha1 instance.

(** C6. With the helper of the spec, late initialization never changes an
    optional field that is already set: when [Default] of a gate
    specification (or [Op] of a condition specification) is set to [v],
    it still is [v] afterwards, whatever the observation holds; and the
    call changes nothing when the specification or the observation is
    nil. *)
Theorem LateInitialize_keeps_set_field :
  (∀ D O v,
      gp_Default D = Some v →
      ∃ D', LateInitializeQualityGate (H := helpers.spec_helpers) (Some D) O = Some D'
            ∧ gp_Default D' = Some v)
  ∧ (∀ P O v,
      cp_Op P = Some v →
      ∃ P', LateInitializeQualityGateCondition (H := helpers.spec_helpers) (Some P) O
            = Some P'
            ∧ cp_Op P' = Some v)
  ∧ (∀ O, LateInitializeQualityGate (H := helpers.spec_helpers) None O = None)
  ∧ (∀ D, LateInitializeQualityGate (H := helpers.spec_helpers) D None = D)
  ∧ (∀ O, LateInitializeQualityGateCondition (H := helpers.spec_helpers) None O = None)
  ∧ (∀ P, LateInitializeQualityGateCondition (H := helpers.spec_helpers) P None = P).
Proof.
  repeat split.
  - intros D [O|] v Hv; simpl; eexists; (split; [reflexivity|]); simpl; [|done].
    by rewrite Hv.
  - intros P [O|] v Hv; simpl; eexists; (split; [reflexivity|]); simpl; [|done].
    by rewrite Hv.
  - by intros [D|].
  - by intros [P|].
Qed.

Lemma LateInitialize_keeps_set_field_witness :
  (∃ D',
      LateInitializeQualityGate (H := helpers.spec_helpers)
        (Some {| gp_Name := "test"; gp_Default := Some false |})
        (Some {| go_Actions := testdata.noActions; go_CaycStatus := "";
                 go_Conditions := []; go_IsAiCodeSupported := false;
                 go_IsBuiltIn := false; go_IsDefault := true; go_Name := "test" |})
      = Some D'
      ∧ gp_Default D' = Some false)
  ∧ (∃ P',
      LateInitializeQualityGateCondition (H := helpers.spec_helpers)
        (Some {| cp_QualityGateName := Some "my-gate"; cp_QualityGateRef := None;
                 cp_QualityGateSelector := None; cp_Error := "80";
                 cp_Metric := "coverage"; cp_Op := Some "GT" |})
        (Some {| co_Error := "80"; co_ID := "1"; co_Metric := "coverage";
                 co_Op := "LT" |})
      = Some P'
      ∧ cp_Op P' = Some "GT").
Proof.
  split.
  - apply (proj1 LateInitialize_keeps_set_field). reflexivity.
  - apply (proj1 (proj2 LateInitialize_keeps_set_field)). reflexivity.
Defined.

(** C9. Whatever the helper does with the field it is handed, late
    initialization changes at most one field of the specification:
    [Default] for the gate and [Op] for the condition.  [Name], and
    [QualityGateName], [QualityGateRef], [QualityGateSelector], [Error]
    and [Metric], are what they were, for every specification and
    observation. *)
Theorem LateInitialize_changes_one_field `{helpers.Helpers} :
  (∀ D O, ∃ default,
      LateInitializeQualityGate (Some D) O
      = Some {| gp_Name := gp_Name D; gp_Default := default |})
  ∧ (∀ O, LateInitializeQualityGate None O = None)
  ∧ (∀ P O, ∃ op,
      LateInitializeQualityGateCondition (Some P) O
      = Some {| cp_QualityGateName := cp_QualityGateName P;
                cp_QualityGateRef := cp_QualityGateRef P;
                cp_QualityGateSelector := cp_QualityGateSelector P;
                cp_Error := cp_Error P;
                cp_Metric := cp_Metric P;
                cp_Op := op |})
  ∧ (∀ O, LateInitializeQualityGateCondition None O = None).
Proof.
  repeat split.
  - intros [name default] [O|]; simpl; eauto.
  - intros [gateName ref selector error metric op] [O|]; simpl; eauto.
Qed.

End LateInitializationProperties.

(** ** The controllers *)

(** Unfolds the statements of a method down to the world they act on. *)
Ltac run_method :=
  unfold managed.asserting, mbind, managed.M_bind, mret, managed.M_ret,
    managed.get, managed.modify, managed.remote, managed.eval;
  simpl.

Section GateControllerSteps.

Import sonargo v1alpha1 managed.

Context {Srv : Type}.

Implicit Types (c : qualitygate.external (Srv := Srv)) (cr : QualityGate)
  (srv : Srv) (log : list Call).

(** [Create], when the remote create operation succeeds: the external
    name is the returned ID; with [Default] set to true the next call is
    SetAsDefault for the Kubernetes name of the resource, and its error,
    if any, is returned under the label of the default flag. *)
Lemma qualitygate_Create_succeeds c cr srv log created srv1 :
  let creating := QualityGate_SetConditions xpv1.Creating cr in
  let named :=
    QualityGate_withObjectMeta
      (meta.SetExternalName (g_ObjectMeta cr) (created_ID created)) creating in
  let opts := instance.GenerateQualityGateCreateOptions (gs_ForProvider (g_Spec cr)) in
  let setDefault := {| setdefaultopt_Name := metav1.Name (g_ObjectMeta cr) |} in
  instance.Create (qualitygate.qualityGatesClient c) opts srv
  = ((Some created, None), srv1) →
  qualitygate.Create c
    {| object := ManagedQualityGate cr; server := srv; calls := log |}
  = match gp_Default (gs_ForProvider (g_Spec cr)) with
    | Some true =>
        let r := instance.SetAsDefault (qualitygate.qualityGatesClient c)
                   setDefault srv1 in
        (Normal (ExternalCreation_zero, errors.Wrap (fst r) qualitygate.errDefaultQualityGate),
         {| object := ManagedQualityGate named;
            server := snd r;
            calls := (log ++ [CallCreate opts]) ++ [CallSetAsDefault setDefault] |})
    | _ =>
        (Normal (ExternalCreation_zero, None),
         {| object := ManagedQualityGate named;
            server := srv1;
            calls := log ++ [CallCreate opts] |})
    end.
Proof.
  intros creating named opts setDefault Hcreate.
  unfold qualitygate.Create. run_method. fold opts. rewrite Hcreate. simpl.
  destruct (gp_Default (gs_ForProvider (g_Spec cr))) as [[|]|]; try done.
  simpl. fold setDefault.
  by destruct (instance.SetAsDefault _ setDefault srv1) as [[e|] srv2].
Qed.

(** [Delete] without an external name: no call, no error. *)
Lemma qualitygate_Delete_never_created c cr srv log :
  meta.GetExternalName (g_ObjectMeta cr) = "" →
  qualitygate.Delete c
    {| object := ManagedQualityGate cr; server := srv; calls := log |}
  = (Normal (ExternalDelete_zero, None),
     {| object := ManagedQualityGate (QualityGate_SetConditions xpv1.Deleting cr);
        server := srv;
        calls := log |}).
Proof.
  intros Hname. unfold qualitygate.Delete. run_method. by rewrite Hname.
Qed.

(** [Delete] with an external name: one Destroy call, for the Kubernetes
    name of the resource; its error, if any, is returned under the label
    of the deletion, and the external name stays. *)
Lemma qualitygate_Delete_calls_Destroy c cr srv log :
  let opt := {| destroyopt_Name := metav1.Name (g_ObjectMeta cr) |} in
  let r := instance.Destroy (qualitygate.qualityGatesClient c) opt srv in
  meta.GetExternalName (g_ObjectMeta cr) ≠ "" →
  qualitygate.Delete c
    {| object := ManagedQualityGate cr; server := srv; calls := log |}
  = (Normal (ExternalDelete_zero, errors.Wrap (fst r) qualitygate.errDeleteQualityGate),
     {| object := ManagedQualityGate (QualityGate_SetConditions xpv1.Deleting cr);
        server := snd r;
        calls := log ++ [CallDestroy opt] |}).
Proof.
  intros opt r Hname. unfold qualitygate.Delete. run_method.
  rewrite bool_decide_eq_false_2 by done. simpl. subst r. fold opt.
  by destruct (instance.Destroy _ opt srv) as [[e|] srv1].
Qed.

End GateControllerSteps.

Section ConditionControllerSteps.

Import sonargo v1alpha1 managed.

Context {Srv : Type}.

Implicit Types (c : qualitygatecondition.external (Srv := Srv))
  (cr : QualityGateCondition) (srv : Srv) (log : list Call).

(** [Create], when the gate name is set and the remote operation
    succeeds: the external name is the returned ID. *)
Lemma qualitygatecondition_Create_succeeds c cr srv log gateName created srv1 :
  let creating := QualityGateCondition_SetConditions xpv1.Creating cr in
  let opts :=
    {| createcondopt_GateName := gateName;
       createcondopt_Error := cp_Error (cs_ForProvider (c_Spec cr));
       createcondopt_Metric := cp_Metric (cs_ForProvider (c_Spec cr));
       createcondopt_Op := default "" (cp_Op (cs_ForProvider (c_Spec cr))) |} in
  cp_QualityGateName (cs_ForProvider (c_Spec cr)) = Some gateName →
  instance.CreateCondition (qualitygatecondition.qualityGatesClient c) opts srv
  = ((Some created, None), srv1) →
  qualitygatecondition.Create c
    {| object := ManagedQualityGateCondition cr; server := srv; calls := log |}
  = (Normal (ExternalCreation_zero, None),
     {| object :=
          ManagedQualityGateCondition
            (QualityGateCondition_withObjectMeta
               (meta.SetExternalName (c_ObjectMeta cr) (createdcond_ID created))
               creating);
        server := srv1;
        calls := log ++ [CallCreateCondition opts] |}).
Proof.
  intros creating opts Hgate Hcreate.
  unfold qualitygatecondition.Create. run_method.
  unfold instance.GenerateCreateQualityGateConditionOption. rewrite Hgate. simpl.
  replace (match cp_Op _ with Some op => op | None => "" end)
    with (default "" (cp_Op (cs_ForProvider (c_Spec cr))))
    by (by destruct (cp_Op _)).
  fold opts. by rewrite Hcreate.
Qed.

(** [Delete] without an external name: no call, no error. *)
Lemma qualitygatecondition_Delete_never_created c cr srv log :
  meta.GetExternalName (c_ObjectMeta cr) = "" →
  qualitygatecondition.Delete c
    {| object := ManagedQualityGateCondition cr; server := srv; calls := log |}
  = (Normal (ExternalDelete_zero, None),
     {| object :=
          ManagedQualityGateCondition
            (QualityGateCondition_SetConditions xpv1.Deleting cr);
        server := srv;
        calls := log |}).
Proof.
  intros Hname. unfold qualitygatecondition.Delete. run_method. by rewrite Hname.
Qed.

(** [Delete] with an external name: one DeleteCondition call, keyed by
    the external name; its error, if any, is returned under the label of
    the deletion, and the external name stays. *)
Lemma qualitygatecondition_Delete_calls_DeleteCondition c cr srv log :
  let opt := {| deletecondopt_Id := meta.GetExternalName (c_ObjectMeta cr) |} in
  let r := instance.DeleteCondition (qualitygatecondition.qualityGatesClient c)
             opt srv in
  meta.GetExternalName (c_ObjectMeta cr) ≠ "" →
  qualitygatecondition.Delete c
    {| object := ManagedQualityGateCondition cr; server := srv; calls := log |}
  = (Normal (ExternalDelete_zero,
             errors.Wrap (fst r) qualitygatecondition.errDeleteQualityGateCondition),
     {| object :=
          ManagedQualityGateCondition
            (QualityGateCondition_SetConditions xpv1.Deleting cr);
        server := snd r;
        calls := log ++ [CallDeleteCondition opt] |}).
Proof.
  intros opt r Hname. unfold qualitygatecondition.Delete. run_method.
  rewrite bool_decide_eq_false_2 by done.
  unfold instance.GenerateDeleteQualityGateConditionOption. simpl. subst r. fold opt.
  by destruct (instance.DeleteCondition _ opt srv) as [[e|] srv1].
Qed.

End ConditionControllerSteps.

(** ** Claims about the controllers *)

Section ControllerClaims.

Import sonargo v1alpha1 managed.

(** C1. At the input of the gate controller's test case
    CreateWithDefaultTrue (Kubernetes name "test-gate", desired name
    "my-sonar-gate", Default true, the remote create operation returning
    the name "my-sonar-gate"), [Create] follows the successful creation by
    a SetAsDefault call whose Name is the Kubernetes name "test-gate", not
    the name the remote create operation returned; the mock rejects it,
    so [Create] returns that error under the label of the default flag,
    and the external name set by the creation is kept. *)
Theorem Create_sets_default_under_resource_name :
  let c := {| qualitygate.qualityGatesClient :=
                fake.client testdata.createWithDefaultTrue_client |} in
  let r := qualitygate.Create c (testdata.start testdata.createWithDefaultTrue_mg) in
  calls (snd r)
  = [CallCreate {| createopt_Name := "my-sonar-gate" |};
     CallSetAsDefault {| setdefaultopt_Name := "test-gate" |}]
  ∧ fst r
    = Normal (ExternalCreation_zero,
              Some (errors.withMessage
                      (errors.errorString
                         "expected SonarQube gate name but got: test-gate")
                      qualitygate.errDefaultQualityGate))
  ∧ testdata.externalNameOf (object (snd r)) = "gate-123".
Proof. by vm_compute. Qed.

(** C2. At the input of the gate controller's test case SuccessfulDelete
    (Kubernetes name "k8s-resource-name", external name "my-sonar-gate"),
    [Delete] issues the Destroy call for the Kubernetes name
    "k8s-resource-name", not for the external name; the mock rejects it,
    so [Delete] returns that error under the label of the deletion.  The
    external name is unchanged. *)
Theorem Delete_destroys_under_resource_name :
  let c := {| qualitygate.qualityGatesClient :=
                fake.client testdata.successfulDelete_client |} in
  let r := qualitygate.Delete c (testdata.start testdata.successfulDelete_mg) in
  testdata.externalNameOf testdata.successfulDelete_mg = "my-sonar-gate"
  ∧ calls (snd r) = [CallDestroy {| destroyopt_Name := "k8s-resource-name" |}]
  ∧ fst r
    = Normal (ExternalDelete_zero,
              Some (errors.withMessage
                      (errors.errorString
                         "expected external name 'my-sonar-gate' but got: k8s-resource-name")
                      qualitygate.errDeleteQualityGate))
  ∧ testdata.externalNameOf (object (snd r)) = "my-sonar-gate".
Proof. by vm_compute. Qed.

(** C4. At the input of TestCreateSetsExternalNameToSonarQubeName (the
    remote create operation returns the ID "generated-id-12345" and the
    display name "ActualSonarQubeName"), a successful [Create] of a gate
    stores the returned ID as the external name, not the returned display
    name. *)
Theorem Create_stores_gate_ID_as_external_name :
  let c := {| qualitygate.qualityGatesClient :=
                fake.client testdata.createSetsExternalName_client |} in
  let r := qualitygate.Create c (testdata.start testdata.createSetsExternalName_mg) in
  fst r = Normal (ExternalCreation_zero, None)
  ∧ calls (snd r) = [CallCreate {| createopt_Name := "ActualSonarQubeName" |}]
  ∧ testdata.externalNameOf (object (snd r)) = "generated-id-12345"
  ∧ testdata.externalNameOf (object (snd r)) ≠ "ActualSonarQubeName".
Proof. by vm_compute. Qed.

(** C3. At the input of the gate controller's test case for a failing
    Show (external name "test-gate", the remote lookup fails), [Observe]
    reports the resource as not existing, but it does not keep the failure
    from the caller: it returns it wrapped with the label of the show
    operation.  At the input of the condition controller's test case
    ConditionNotFoundInQualityGate (external name "cond-123", and no
    condition with that ID in the condition list that the lookup
    returned), [Observe] likewise reports the resource as not existing and
    returns the not-found error, wrapped. *)
Theorem Observe_surfaces_lookup_failure :
  let gates := {| qualitygate.qualityGatesClient :=
                    fake.client testdata.showFails_client |} in
  let conditions := {| qualitygatecondition.qualityGatesClient :=
                         fake.client testdata.conditionNotFound_client |} in
  let absent := {| ResourceExists := false;
                   ResourceUpToDate := false;
                   ResourceLateInitialized := false |} in
  let r := qualitygate.Observe (H := helpers.spec_helpers) gates
             (testdata.start testdata.showFails_mg) in
  let r' := qualitygatecondition.Observe (H := helpers.spec_helpers) conditions
              (testdata.start testdata.conditionNotFound_mg) in
  (testdata.externalNameOf testdata.showFails_mg = "test-gate"
   ∧ calls (snd r) = [CallShow {| showopt_Name := "test-gate" |}]
   ∧ fst r
     = Normal (absent,
               Some (errors.withMessage (errors.errorString "api error")
                       qualitygate.errShowQualityGate))
   ∧ ¬ (∃ o, fst r = Normal (o, None)))
  ∧ (testdata.externalNameOf testdata.conditionNotFound_mg = "cond-123"
     ∧ calls (snd r') = [CallShow {| showopt_Name := "cond-123" |}]
     ∧ snd (instance.FindQualityGateConditionObservation "cond-123" [])
       = Some (errors.New instance.errConditionNotFound)
     ∧ fst r'
       = Normal (absent,
                 Some (errors.withMessage
                         (errors.errorString
                            "quality gate condition not found in observation")
                         qualitygatecondition.errShowQualityGateCondition))
     ∧ ¬ (∃ o, fst r' = Normal (o, None))).
Proof.
  vm_compute. repeat split; try done; by intros [o Ho].
Qed.

(** What both [Observe] methods do when the lookup fails, for every client
    and every resource with an external name: the failure of Show, and
    for a condition also the failure of
    [FindQualityGateConditionObservation] on the condition list that Show
    returned, comes back wrapped with the label of the show operation,
    with the resource reported as not existing and left as it was.  No
    failure is told apart from another. *)
Lemma Observe_returns_lookup_failure `{helpers.Helpers} {Srv : Type} :
  (∀ (c : qualitygate.external (Srv := Srv)) cr srv log shown e srv1,
      let opt := {| showopt_Name := meta.GetExternalName (g_ObjectMeta cr) |} in
      meta.GetExternalName (g_ObjectMeta cr) ≠ "" →
      instance.Show (qualitygate.qualityGatesClient c) opt srv
      = ((shown, Some e), srv1) →
      qualitygate.Observe c
        {| object := ManagedQualityGate cr; server := srv; calls := log |}
      = (Normal ({| ResourceExists := false;
                    ResourceUpToDate := false;
                    ResourceLateInitialized := false |},
                 Some (errors.withMessage e qualitygate.errShowQualityGate)),
         {| object := ManagedQualityGate cr;
            server := srv1;
            calls := log ++ [CallShow opt] |}))
  ∧ (∀ (c : qualitygatecondition.external (Srv := Srv)) cr srv log shown e srv1,
      let opt := {| showopt_Name := meta.GetExternalName (c_ObjectMeta cr) |} in
      meta.GetExternalName (c_ObjectMeta cr) ≠ "" →
      instance.Show (qualitygatecondition.qualityGatesClient c) opt srv
      = ((shown, Some e), srv1) →
      qualitygatecondition.Observe c
        {| object := ManagedQualityGateCondition cr; server := srv; calls := log |}
      = (Normal ({| ResourceExists := false;
                    ResourceUpToDate := false;
                    ResourceLateInitialized := false |},
                 Some (errors.withMessage e
                         qualitygatecondition.errShowQualityGateCondition)),
         {| object := ManagedQualityGateCondition cr;
            server := srv1;
            calls := log ++ [CallShow opt] |}))
  ∧ (∀ (c : qualitygatecondition.external (Srv := Srv)) cr srv log shown srv1,
      let opt := {| showopt_Name := meta.GetExternalName (c_ObjectMeta cr) |} in
      meta.GetExternalName (c_ObjectMeta cr) ≠ "" →
      instance.Show (qualitygatecondition.qualityGatesClient c) opt srv
      = ((Some shown, None), srv1) →
      Forall (λ cond, sub2_ID cond ≠ meta.GetExternalName (c_ObjectMeta cr))
        (show_Conditions shown) →
      qualitygatecondition.Observe c
        {| object := ManagedQualityGateCondition cr; server := srv; calls := log |}
      = (Normal ({| ResourceExists := false;
                    ResourceUpToDate := false;
                    ResourceLateInitialized := false |},
                 Some (errors.withMessage
                         (errors.New instance.errConditionNotFound)
                         qualitygatecondition.errShowQualityGateCondition)),
         {| object := ManagedQualityGateCondition cr;
            server := srv1;
            calls := log ++ [CallShow opt] |})).
Proof.
  split; [|split].
  - intros c cr srv log shown e srv1 opt Hname Hshow.
    unfold qualitygate.Observe. run_method.
    rewrite bool_decide_eq_false_2 by done. simpl. fold opt.
    by rewrite Hshow.
  - intros c cr srv log shown e srv1 opt Hname Hshow.
    unfold qualitygatecondition.Observe. run_method.
    rewrite bool_decide_eq_false_2 by done. simpl. fold opt.
    by rewrite Hshow.
  - intros c cr srv log shown srv1 opt Hname Hshow Hnone.
    unfold qualitygatecondition.Observe. run_method.
    rewrite bool_decide_eq_false_2 by done. simpl. fold opt.
    rewrite Hshow. simpl.
    by rewrite (Find_no_match _ _ Hnone).
Qed.


(** C7. For a gate and for a condition alike, [Update] on a resource
    whose external identity is empty fails with the error that the
    external name is not set, and issues no remote call: the log of calls,
    the server and the resource are what they were. *)
Theorem Update_without_external_name_fails {Srv : Type} :
  (∀ (c : qualitygate.external (Srv := Srv)) cr srv log,
      meta.GetExternalName (g_ObjectMeta cr) = "" →
      qualitygate.Update c
        {| object := ManagedQualityGate cr; server := srv; calls := log |}
      = (Normal (ExternalUpdate_zero,
                 Some (fmt.Errorf "external name is not set for Quality Gate "
                         (metav1.Name (g_ObjectMeta cr)))),
         {| object := ManagedQualityGate cr; server := srv; calls := log |}))
  ∧ (∀ (c : qualitygatecondition.external (Srv := Srv)) cr srv log,
      meta.GetExternalName (c_ObjectMeta cr) = "" →
      qualitygatecondition.Update c
        {| object := ManagedQualityGateCondition cr; server := srv; calls := log |}
      = (Normal (ExternalUpdate_zero,
                 Some (fmt.Errorf
                         "external name is not set for Quality Gate Condition "
                         (metav1.Name (c_ObjectMeta cr)))),
         {| object := ManagedQualityGateCondition cr; server := srv; calls := log |})).
Proof.
  split; intros c cr srv log Hname.
  - unfold qualitygate.Update. run_method. by rewrite Hname.
  - unfold qualitygatecondition.Update. run_method. by rewrite Hname.
Qed.

Lemma Update_without_external_name_fails_witness :
  let c := {| qualitygate.qualityGatesClient := fake.client fake.noCalls |} in
  let cr :=
    testdata.gate "test-gate" {| gp_Name := "test-gate"; gp_Default := None |} None in
  meta.GetExternalName (g_ObjectMeta cr) = ""
  ∧ qualitygate.Update c (testdata.start (ManagedQualityGate cr))
    = (Normal (ExternalUpdate_zero,
               Some (errors.errorString
                       "external name is not set for Quality Gate test-gate")),
       testdata.start (ManagedQualityGate cr)).
Proof.
  split; [reflexivity|].
  apply (proj1 (Update_without_external_name_fails (Srv := unit))).
  reflexivity.
Defined.

(** C8. The payload of the remote create operation for a condition reads
    the gate name through the [QualityGateName] pointer without a check.
    For every condition whose [QualityGateName] is nil, the payload
    builder panics and so does [Create], before any remote call and
    without returning an error; hence [Create] returns only when the gate
    name is set.  When it is set, and the client hands back an object
    whenever it reports no error, [Create] returns. *)
Theorem Create_condition_panics_without_gate_name {Srv : Type} :
  (∀ params,
      cp_QualityGateName params = None →
      instance.GenerateCreateQualityGateConditionOption params = Panic nilDereference)
  ∧ (∀ (c : qualitygatecondition.external (Srv := Srv)) cr srv log,
      cp_QualityGateName (cs_ForProvider (c_Spec cr)) = None →
      qualitygatecondition.Create c
        {| object := ManagedQualityGateCondition cr; server := srv; calls := log |}
      = (Panic nilDereference,
         {| object :=
              ManagedQualityGateCondition
                (QualityGateCondition_SetConditions xpv1.Creating cr);
            server := srv;
            calls := log |}))
  ∧ (∀ (c : qualitygatecondition.external (Srv := Srv)) cr srv log r,
      fst (qualitygatecondition.Create c
             {| object := ManagedQualityGateCondition cr; server := srv; calls := log |})
      = Normal r →
      is_Some (cp_QualityGateName (cs_ForProvider (c_Spec cr))))
  ∧ (∀ (c : qualitygatecondition.external (Srv := Srv)) cr srv log,
      is_Some (cp_QualityGateName (cs_ForProvider (c_Spec cr))) →
      (∀ opt srv',
          snd (fst (instance.CreateCondition
                      (qualitygatecondition.qualityGatesClient c) opt srv')) = None →
          is_Some (fst (fst (instance.CreateCondition
                               (qualitygatecondition.qualityGatesClient c) opt srv')))) →
      ∃ r,
        fst (qualitygatecondition.Create c
               {| object := ManagedQualityGateCondition cr; server := srv; calls := log |})
        = Normal r).
Proof.
  assert (Hpanic : ∀ (c : qualitygatecondition.external (Srv := Srv)) cr srv log,
    cp_QualityGateName (cs_ForProvider (c_Spec cr)) = None →
    qualitygatecondition.Create c
      {| object := ManagedQualityGateCondition cr; server := srv; calls := log |}
    = (Panic nilDereference,
       {| object :=
            ManagedQualityGateCondition
              (QualityGateCondition_SetConditions xpv1.Creating cr);
          server := srv;
          calls := log |})).
  { intros c cr srv log Hnil.
    unfold qualitygatecondition.Create. run_method.
    unfold instance.GenerateCreateQualityGateConditionOption.
    by rewrite Hnil. }
  split; [|split; [|split]].
  - intros params Hnil.
    unfold instance.GenerateCreateQualityGateConditionOption. by rewrite Hnil.
  - exact Hpanic.
  - intros c cr srv log r Hreturns.
    destruct (cp_QualityGateName (cs_ForProvider (c_Spec cr))) as [name|] eqn:Hname;
      [by eexists|].
    by rewrite (Hpanic c cr srv log Hname) in Hreturns.
  - intros c cr srv log [name Hname] Hclient.
    unfold qualitygatecondition.Create. run_method.
    unfold instance.GenerateCreateQualityGateConditionOption.
    rewrite Hname. simpl.
    match goal with
    | |- context [instance.CreateCondition ?cl ?opt ?s] =>
        specialize (Hclient opt s);
        destruct (instance.CreateCondition cl opt s) as [[created [e|]] srv1]
    end; simpl in *; [by eexists|].
    destruct Hclient as [obj ->]; [done|]. simpl. by eexists.
Qed.

Lemma Create_condition_panics_without_gate_name_witness :
  let c := {| qualitygatecondition.qualityGatesClient := fake.client fake.noCalls |} in
  let cr :=
    testdata.condition "test-condition"
      {| cp_QualityGateName := None; cp_QualityGateRef := None;
         cp_QualityGateSelector := None; cp_Error := "80";
         cp_Metric := "coverage"; cp_Op := None |}
      None in
  cp_QualityGateName (cs_ForProvider (c_Spec cr)) = None
  ∧ qualitygatecondition.Create c (testdata.start (ManagedQualityGateCondition cr))
    = (Panic nilDereference,
       {| object :=
            ManagedQualityGateCondition
              (QualityGateCondition_SetConditions xpv1.Creating cr);
          server := ();
          calls := [] |}).
Proof.
  split; [reflexivity|].
  apply (proj1 (proj2 (Create_condition_panics_without_gate_name (Srv := unit)))).
  reflexivity.
Defined.

End ControllerClaims.

(** * Further properties of the controllers *)

Section ObserveProperties.

Import sonargo v1alpha1 managed.

(** X1. For a gate and for a condition alike, [Observe] on a resource
    whose external name is empty reports that the resource does not exist,
    with no error, and touches neither the server nor the resource: no
    remote call is issued. *)
Theorem Observe_without_external_name `{helpers.Helpers} {Srv : Type} :
  (∀ (c : qualitygate.external (Srv := Srv)) cr srv log,
      meta.GetExternalName (g_ObjectMeta cr) = "" →
      qualitygate.Observe c
        {| object := ManagedQualityGate cr; server := srv; calls := log |}
      = (Normal ({| ResourceExists := false;
                    ResourceUpToDate := false;
                    ResourceLateInitialized := false |}, None),
         {| object := ManagedQualityGate cr; server := srv; calls := log |}))
  ∧ (∀ (c : qualitygatecondition.external (Srv := Srv)) cr srv log,
      meta.GetExternalName (c_ObjectMeta cr) = "" →
      qualitygatecondition.Observe c
        {| object := ManagedQualityGateCondition cr; server := srv; calls := log |}
      = (Normal ({| ResourceExists := false;
                    ResourceUpToDate := false;
                    ResourceLateInitialized := false |}, None),
         {| object := ManagedQualityGateCondition cr; server := srv; calls := log |})).
Proof.
  split; intros c cr srv log Hname.
  - unfold qualitygate.Observe. run_method. by rewrite Hname.
  - unfold qualitygatecondition.Observe. run_method. by rewrite Hname.
Qed.

Lemma Observe_without_external_name_witness :
  let c := {| qualitygate.qualityGatesClient := fake.client fake.noCalls |} in
  let cr :=
    testdata.gate "test-gate" {| gp_Name := "test-gate"; gp_Default := None |} None in
  meta.GetExternalName (g_ObjectMeta cr) = ""
  ∧ qualitygate.Observe (H := helpers.spec_helpers) c
      (testdata.start (ManagedQualityGate cr))
    = (Normal ({| ResourceExists := false;
                  ResourceUpToDate := false;
                  ResourceLateInitialized := false |}, None),
       testdata.start (ManagedQualityGate cr)).
Proof.
  split; [reflexivity|].
  apply (proj1 (Observe_without_external_name
                  (H := helpers.spec_helpers) (Srv := unit))).
  reflexivity.
Defined.

(** X2. [Observe] only reads.  Whatever the client answers and whatever
    the helpers do, [Observe] of either controller leaves the metadata of
    the resource, and with it the external name, as it was, and issues at
    most one remote call: the Show call keyed by the external name. *)
Theorem Observe_only_reads `{helpers.Helpers} {Srv : Type} :
  (∀ (c : qualitygate.external (Srv := Srv)) (w : World Srv Managed),
      let r := qualitygate.Observe c w in
      let opt := {| showopt_Name := meta.GetExternalName (ObjectMetaOf (object w)) |} in
      ObjectMetaOf (object (snd r)) = ObjectMetaOf (object w)
      ∧ (calls (snd r) = calls w ∨ calls (snd r) = calls w ++ [CallShow opt]))
  ∧ (∀ (c : qualitygatecondition.external (Srv := Srv)) (w : World Srv Managed),
      let r := qualitygatecondition.Observe c w in
      let opt := {| showopt_Name := meta.GetExternalName (ObjectMetaOf (object w)) |} in
      ObjectMetaOf (object (snd r)) = ObjectMetaOf (object w)
      ∧ (calls (snd r) = calls w ∨ calls (snd r) = calls w ++ [CallShow opt])).
Proof.
  split; intros c [mg srv log]; destruct mg as [cr|cr|o]; simpl.
  - unfold qualitygate.Observe. run_method.
    case_bool_decide; simpl; [by auto|].
    destruct (instance.Show _ _ srv) as [[[shown|] [e|]] srv1]; simpl; by auto.
  - unfold qualitygate.Observe. run_method. by auto.
  - unfold qualitygate.Observe. run_method. by auto.
  - unfold qualitygatecondition.Observe. run_method. by auto.
  - unfold qualitygatecondition.Observe. run_method.
    case_bool_decide; simpl; [by auto|].
    destruct (instance.Show _ _ srv) as [[[shown|] [e|]] srv1]; simpl; try by auto.
    destruct (instance.FindQualityGateConditionObservation _ _) as [observation [e|]];
      simpl; by auto.
  - unfold qualitygatecondition.Observe. run_method. by auto.
Qed.

End ObserveProperties.

(** Settles an equivalence between a verdict computed with [bool_decide]
    and the equations it decides. *)
Ltac decide_verdict :=
  repeat case_bool_decide; simpl in *; intuition (try congruence); exfalso; eauto.

Section ObserveVerdicts.

Import sonargo v1alpha1 managed.

(** X3. With the helpers of the spec, when Show answers with a gate,
    [Observe] of the gate controller reports that the resource exists,
    with no error; it copies the shown gate into the status, marks the
    resource available, and fills [Default] from the shown gate when it
    was nil.  The resource is reported late-initialized exactly when
    [Default] was nil, and up to date exactly when the desired name is the
    shown name and [Default], if it was set, is the shown default flag. *)
Theorem Observe_gate_verdicts {Srv : Type} (c : qualitygate.external (Srv := Srv))
    cr srv log shown srv1 :
  let spec := gs_ForProvider (g_Spec cr) in
  let opt := {| showopt_Name := meta.GetExternalName (g_ObjectMeta cr) |} in
  let r := qualitygate.Observe (H := helpers.spec_helpers) c
             {| object := ManagedQualityGate cr; server := srv; calls := log |} in
  meta.GetExternalName (g_ObjectMeta cr) ≠ "" →
  instance.Show (qualitygate.qualityGatesClient c) opt srv
  = ((Some shown, None), srv1) →
  ∃ o atProvider,
    fst r = Normal (o, None)
    ∧ ResourceExists o = true
    ∧ (ResourceUpToDate o = true
       ↔ gp_Name spec = show_Name shown
         ∧ (∀ v, gp_Default spec = Some v → v = show_IsDefault shown))
    ∧ (ResourceLateInitialized o = true ↔ gp_Default spec = None)
    ∧ instance.GenerateQualityGateObservation (Some shown) = Normal atProvider
    ∧ snd r
      = {| object :=
             ManagedQualityGate
               (QualityGate_withForProvider
                  {| gp_Name := gp_Name spec;
                     gp_Default :=
                       Some (default (show_IsDefault shown) (gp_Default spec)) |}
                  (QualityGate_SetConditions xpv1.Available
                     (QualityGate_withAtProvider atProvider cr)));
           server := srv1;
           calls := log ++ [CallShow opt] |}.
Proof.
  intros spec opt r Hname Hshow. subst r.
  unfold qualitygate.Observe. run_method.
  rewrite bool_decide_eq_false_2 by done. simpl. fold opt. rewrite Hshow. simpl.
  fold spec. eexists _, _. split; [reflexivity|]. simpl.
  split; [done|].
  destruct spec as [name [default|]]; simpl; repeat split; try done.
  - by case_bool_decide.
  - intros v [= <-]. case_bool_decide; [done|]. simpl in *. by case_bool_decide.
  - intros [-> Hdefault]. rewrite bool_decide_eq_false_2 by (by intros ?). simpl.
    by rewrite (Hdefault default eq_refl), bool_decide_eq_true_2.
  - by rewrite bool_decide_eq_true_2.
  - by case_bool_decide.
  - intros [-> _]. rewrite bool_decide_eq_false_2 by (by intros ?). simpl.
    by rewrite bool_decide_eq_true_2.
  - by rewrite bool_decide_eq_false_2.
Qed.

Lemma Observe_gate_verdicts_witness :
  let c := {| qualitygate.qualityGatesClient :=
                fake.client testdata.lateInitializeDefault_client |} in
  let r := qualitygate.Observe (H := helpers.spec_helpers) c
             (testdata.start testdata.lateInitializeDefault_mg) in
  ∃ o atProvider,
    fst r = Normal (o, None)
    ∧ ResourceExists o = true
    ∧ (ResourceUpToDate o = true
       ↔ "test-gate" = "test-gate" ∧ (∀ v : bool, None = Some v → v = true))
    ∧ (ResourceLateInitialized o = true ↔ @None bool = None)
    ∧ instance.GenerateQualityGateObservation
        (Some (testdata.shown "test-gate" true [])) = Normal atProvider
    ∧ snd r
      = {| object :=
             ManagedQualityGate
               (QualityGate_withForProvider
                  {| gp_Name := "test-gate"; gp_Default := Some true |}
                  (QualityGate_SetConditions xpv1.Available
                     (QualityGate_withAtProvider atProvider
                        (testdata.gate "test-gate"
                           {| gp_Name := "test-gate"; gp_Default := None |}
                           (Some "test-gate")))));
           server := ();
           calls := [CallShow {| showopt_Name := "test-gate" |}] |}.
Proof.
  apply (Observe_gate_verdicts
           {| qualitygate.qualityGatesClient :=
                fake.client testdata.lateInitializeDefault_client |}
           (testdata.gate "test-gate" {| gp_Name := "test-gate"; gp_Default := None |}
              (Some "test-gate"))
           () [] (testdata.shown "test-gate" true []) ()).
  - by vm_compute.
  - reflexivity.
Defined.

(** X4. With the helpers of the spec, when Show answers with a gate whose
    condition list holds a condition with the external name as its ID,
    [Observe] of the condition controller reports that the resource
    exists, with no error; the status holds the first such condition, the
    resource is marked available, and [Op] is filled from it when it was
    nil.  The resource is reported late-initialized exactly when [Op] was
    nil, and up to date exactly when [Error] and [Metric] are the observed
    ones and [Op], if it was set, is the observed operator. *)
Theorem Observe_condition_verdicts {Srv : Type}
    (c : qualitygatecondition.external (Srv := Srv))
    cr srv log shown srv1 before cond after :
  let params := cs_ForProvider (c_Spec cr) in
  let opt := {| showopt_Name := meta.GetExternalName (c_ObjectMeta cr) |} in
  let r := qualitygatecondition.Observe (H := helpers.spec_helpers) c
             {| object := ManagedQualityGateCondition cr; server := srv; calls := log |} in
  meta.GetExternalName (c_ObjectMeta cr) ≠ "" →
  instance.Show (qualitygatecondition.qualityGatesClient c) opt srv
  = ((Some shown, None), srv1) →
  show_Conditions shown = before ++ cond :: after →
  Forall (λ other, sub2_ID other ≠ meta.GetExternalName (c_ObjectMeta cr)) before →
  sub2_ID cond = meta.GetExternalName (c_ObjectMeta cr) →
  ∃ o,
    fst r = Normal (o, None)
    ∧ ResourceExists o = true
    ∧ (ResourceUpToDate o = true
       ↔ cp_Error params = sub2_Error cond
         ∧ cp_Metric params = sub2_Metric cond
         ∧ (∀ v, cp_Op params = Some v → v = sub2_Op cond))
    ∧ (ResourceLateInitialized o = true ↔ cp_Op params = None)
    ∧ snd r
      = {| object :=
             ManagedQualityGateCondition
               (QualityGateCondition_withForProvider
                  {| cp_QualityGateName := cp_QualityGateName params;
                     cp_QualityGateRef := cp_QualityGateRef params;
                     cp_QualityGateSelector := cp_QualityGateSelector params;
                     cp_Error := cp_Error params;
                     cp_Metric := cp_Metric params;
                     cp_Op := Some (default (sub2_Op cond) (cp_Op params)) |}
                  (QualityGateCondition_SetConditions xpv1.Available
                     (QualityGateCondition_withAtProvider
                        (instance.GenerateQualityGateConditionObservation cond) cr)));
           server := srv1;
           calls := log ++ [CallShow opt] |}.
Proof.
  intros params opt r Hname Hshow Hconds Hbefore Hcond. subst r.
  unfold qualitygatecondition.Observe. run_method.
  rewrite bool_decide_eq_false_2 by done. simpl. fold opt. rewrite Hshow. simpl.
  rewrite Hconds, (Find_first_match _ _ _ _ Hbefore Hcond). simpl.
  fold params. eexists. split; [reflexivity|]. simpl.
  split; [done|].
  destruct params as [gateName ref selector error metric [op|]]; simpl;
    (split; [decide_verdict | split; [decide_verdict | done]]).
Qed.

End ObserveVerdicts.

Section ObserveVerdictsWitness.

Import sonargo v1alpha1 managed.

Lemma Observe_condition_verdicts_witness :
  let cond := {| sub2_Error := "80"; sub2_ID := "cond-123";
                 sub2_Metric := "coverage"; sub2_Op := "LT" |} in
  let c := {| qualitygatecondition.qualityGatesClient :=
                fake.client testdata.conditionExists_client |} in
  let r := qualitygatecondition.Observe (H := helpers.spec_helpers) c
             (testdata.start testdata.conditionExists_mg) in
  ∃ o,
    fst r = Normal (o, None)
    ∧ ResourceExists o = true
    ∧ (ResourceUpToDate o = true
       ↔ "80" = "80" ∧ "coverage" = "coverage"
         ∧ (∀ v, Some "LT" = Some v → v = "LT"))
    ∧ (ResourceLateInitialized o = true ↔ Some "LT" = None)
    ∧ snd r
      = {| object :=
             ManagedQualityGateCondition
               (QualityGateCondition_withForProvider
                  {| cp_QualityGateName := Some "test-gate";
                     cp_QualityGateRef := None;
                     cp_QualityGateSelector := None;
                     cp_Error := "80";
                     cp_Metric := "coverage";
                     cp_Op := Some "LT" |}
                  (QualityGateCondition_SetConditions xpv1.Available
                     (QualityGateCondition_withAtProvider
                        (instance.GenerateQualityGateConditionObservation cond)
                        (testdata.condition "test-condition"
                           {| cp_QualityGateName := Some "test-gate";
                              cp_QualityGateRef := None;
                              cp_QualityGateSelector := None;
                              cp_Error := "80";
                              cp_Metric := "coverage";
                              cp_Op := Some "LT" |}
                           (Some "cond-123")))));
           server := ();
           calls := [CallShow {| showopt_Name := "cond-123" |}] |}.
Proof.
  intros cond.
  apply (Observe_condition_verdicts
           {| qualitygatecondition.qualityGatesClient :=
                fake.client testdata.conditionExists_client |}
           (testdata.condition "test-condition"
              {| cp_QualityGateName := Some "test-gate";
                 cp_QualityGateRef := None;
                 cp_QualityGateSelector := None;
                 cp_Error := "80";
                 cp_Metric := "coverage";
                 cp_Op := Some "LT" |}
              (Some "cond-123"))
           () [] (testdata.shown "test-gate" false [cond]) () [] cond []).
  - by vm_compute.
  - reflexivity.
  - reflexivity.
  - constructor.
  - reflexivity.
Defined.

End ObserveVerdictsWitness.

Section UpdateProperties.

Import sonargo v1alpha1 managed.

(** X5. Whatever the client answers, when [Update] of the gate controller
    returns without an error on a gate that has an external name, the
    external name afterwards is the desired name of the gate. *)
Theorem Update_gate_success_aligns_external_name {Srv : Type}
    (c : qualitygate.external (Srv := Srv)) cr srv log u w' :
  meta.GetExternalName (g_ObjectMeta cr) ≠ "" →
  qualitygate.Update c
    {| object := ManagedQualityGate cr; server := srv; calls := log |}
  = (Normal (u, None), w') →
  meta.GetExternalName (ObjectMetaOf (object w'))
  = gp_Name (gs_ForProvider (g_Spec cr)).
Proof.
  intros Hname. unfold qualitygate.Update, qualitygate.Update_setDefault. run_method.
  rewrite bool_decide_eq_false_2 by done. simpl.
  case_bool_decide as Hdiffers; simpl.
  - destruct (instance.Rename _ _ srv) as [[e|] srv1]; simpl; [by intros [= ]|].
    destruct (gp_Default _) as [[|]|]; simpl.
    + destruct (instance.SetAsDefault _ _ srv1) as [[e|] srv2]; simpl; intros [= <- <-];
        simpl; unfold meta.GetExternalName; simpl; by rewrite lookup_insert_eq.
    + intros [= <- <-]. simpl. unfold meta.GetExternalName. simpl.
      by rewrite lookup_insert_eq.
    + intros [= <- <-]. simpl. unfold meta.GetExternalName. simpl.
      by rewrite lookup_insert_eq.
  - destruct (gp_Default _) as [[|]|]; simpl.
    + by destruct (instance.SetAsDefault _ _ srv) as [[e|] srv2]; simpl; intros [= <- <-].
    + by intros [= <- <-].
    + by intros [= <- <-].
Qed.

End UpdateProperties.

Section UpdateWitnessesAndCases.

Import sonargo v1alpha1 managed.

Lemma Update_gate_success_aligns_external_name_witness :
  let c := {| qualitygate.qualityGatesClient :=
                fake.client testdata.renameWhenNamesDiffer_client |} in
  let w := testdata.start testdata.renameWhenNamesDiffer_mg in
  testdata.externalNameOf testdata.renameWhenNamesDiffer_mg = "old-name"
  ∧ meta.GetExternalName (ObjectMetaOf (object (snd (qualitygate.Update c w))))
    = "new-name".
Proof.
  intros c w. split; [reflexivity|].
  apply (Update_gate_success_aligns_external_name c
           (testdata.gate "test-gate" {| gp_Name := "new-name"; gp_Default := None |}
              (Some "old-name"))
           () [] ExternalUpdate_zero (snd (qualitygate.Update c w))).
  - by vm_compute.
  - reflexivity.
Defined.

(** X6. [Update] of the gate controller has nothing to do when the
    external name already is the desired name and the spec does not ask
    for the default flag: it returns no error, issues no remote call and
    leaves the resource as it was. *)
Theorem Update_gate_nothing_to_do {Srv : Type}
    (c : qualitygate.external (Srv := Srv)) cr srv log :
  meta.GetExternalName (g_ObjectMeta cr) ≠ "" →
  gp_Name (gs_ForProvider (g_Spec cr)) = meta.GetExternalName (g_ObjectMeta cr) →
  gp_Default (gs_ForProvider (g_Spec cr)) ≠ Some true →
  qualitygate.Update c
    {| object := ManagedQualityGate cr; server := srv; calls := log |}
  = (Normal (ExternalUpdate_zero, None),
     {| object := ManagedQualityGate cr; server := srv; calls := log |}).
Proof.
  intros Hname Hsame Hdefault.
  unfold qualitygate.Update, qualitygate.Update_setDefault. run_method.
  rewrite bool_decide_eq_false_2 by done. simpl.
  rewrite bool_decide_eq_false_2 by (by intros ?). simpl.
  by destruct (gp_Default _) as [[|]|].
Qed.

Lemma Update_gate_nothing_to_do_witness :
  let c := {| qualitygate.qualityGatesClient := fake.client fake.noCalls |} in
  let cr :=
    testdata.gate "test-gate" {| gp_Name := "my-sonar-gate"; gp_Default := Some false |}
      (Some "my-sonar-gate") in
  qualitygate.Update c (testdata.start (ManagedQualityGate cr))
  = (Normal (ExternalUpdate_zero, None), testdata.start (ManagedQualityGate cr)).
Proof.
  intros c cr. apply (Update_gate_nothing_to_do c cr () []).
  - by vm_compute.
  - reflexivity.
  - by vm_compute.
Defined.

(** X7. When the desired name of a gate differs from its external name,
    [Update] first issues a Rename call from the external name to the
    desired name.  If that call fails, [Update] returns the error under
    the label of the update, keeps the external name, and does not go on
    to the default flag. *)
Theorem Update_gate_rename_failure {Srv : Type}
    (c : qualitygate.external (Srv := Srv)) cr srv log e srv1 :
  let opt := {| renameopt_CurrentName := meta.GetExternalName (g_ObjectMeta cr);
                renameopt_Name := gp_Name (gs_ForProvider (g_Spec cr)) |} in
  meta.GetExternalName (g_ObjectMeta cr) ≠ "" →
  gp_Name (gs_ForProvider (g_Spec cr)) ≠ meta.GetExternalName (g_ObjectMeta cr) →
  instance.Rename (qualitygate.qualityGatesClient c) opt srv = (Some e, srv1) →
  qualitygate.Update c
    {| object := ManagedQualityGate cr; server := srv; calls := log |}
  = (Normal (ExternalUpdate_zero,
             Some (errors.withMessage e qualitygate.errUpdateQualityGate)),
     {| object := ManagedQualityGate cr;
        server := srv1;
        calls := log ++ [CallRename opt] |}).
Proof.
  intros opt Hname Hdiffers Hrename.
  unfold qualitygate.Update. run_method.
  rewrite bool_decide_eq_false_2 by done. simpl.
  rewrite bool_decide_eq_true_2 by done. simpl. fold opt.
  by rewrite Hrename.
Qed.

Lemma Update_gate_rename_failure_witness :
  let c := {| qualitygate.qualityGatesClient :=
                fake.client
                  (fake.withRenameFn (λ _, Some (errors.New "rename error"))
                     fake.noCalls) |} in
  let cr :=
    testdata.gate "test-gate" {| gp_Name := "new-name"; gp_Default := Some true |}
      (Some "old-name") in
  qualitygate.Update c (testdata.start (ManagedQualityGate cr))
  = (Normal (ExternalUpdate_zero,
             Some (errors.withMessage (errors.New "rename error")
                     qualitygate.errUpdateQualityGate)),
     {| object := ManagedQualityGate cr;
        server := ();
        calls := [CallRename {| renameopt_CurrentName := "old-name";
                                renameopt_Name := "new-name" |}] |}).
Proof.
  intros c cr.
  apply (Update_gate_rename_failure c cr () [] (errors.New "rename error") ()).
  - by vm_compute.
  - by vm_compute.
  - reflexivity.
Defined.

(** X8. When the spec of a gate asks for the default flag, every [Update]
    that gets past the renaming ends with a SetAsDefault call for the
    desired name, also when nothing else has changed; its error, if any,
    is returned under the label of the default flag.  After a renaming
    the external name is the desired name, whether or not that call
    fails. *)
Theorem Update_gate_reasserts_default {Srv : Type} :
  (∀ (c : qualitygate.external (Srv := Srv)) cr srv log,
      let opt := {| setdefaultopt_Name := gp_Name (gs_ForProvider (g_Spec cr)) |} in
      let r := instance.SetAsDefault (qualitygate.qualityGatesClient c) opt srv in
      meta.GetExternalName (g_ObjectMeta cr) ≠ "" →
      gp_Name (gs_ForProvider (g_Spec cr)) = meta.GetExternalName (g_ObjectMeta cr) →
      gp_Default (gs_ForProvider (g_Spec cr)) = Some true →
      qualitygate.Update c
        {| object := ManagedQualityGate cr; server := srv; calls := log |}
      = (Normal (ExternalUpdate_zero,
                 errors.Wrap (fst r) qualitygate.errDefaultQualityGate),
         {| object := ManagedQualityGate cr;
            server := snd r;
            calls := log ++ [CallSetAsDefault opt] |}))
  ∧ (∀ (c : qualitygate.external (Srv := Srv)) cr srv log srv1,
      let rename := {| renameopt_CurrentName := meta.GetExternalName (g_ObjectMeta cr);
                       renameopt_Name := gp_Name (gs_ForProvider (g_Spec cr)) |} in
      let opt := {| setdefaultopt_Name := gp_Name (gs_ForProvider (g_Spec cr)) |} in
      let r := instance.SetAsDefault (qualitygate.qualityGatesClient c) opt srv1 in
      meta.GetExternalName (g_ObjectMeta cr) ≠ "" →
      gp_Name (gs_ForProvider (g_Spec cr)) ≠ meta.GetExternalName (g_ObjectMeta cr) →
      instance.Rename (qualitygate.qualityGatesClient c) rename srv = (None, srv1) →
      gp_Default (gs_ForProvider (g_Spec cr)) = Some true →
      qualitygate.Update c
        {| object := ManagedQualityGate cr; server := srv; calls := log |}
      = (Normal (ExternalUpdate_zero,
                 errors.Wrap (fst r) qualitygate.errDefaultQualityGate),
         {| object :=
              ManagedQualityGate
                (QualityGate_withObjectMeta
                   (meta.SetExternalName (g_ObjectMeta cr)
                      (gp_Name (gs_ForProvider (g_Spec cr))))
                   cr);
            server := snd r;
            calls := (log ++ [CallRename rename]) ++ [CallSetAsDefault opt] |})).
Proof.
  split.
  - intros c cr srv log opt r Hname Hsame Hdefault. subst r.
    unfold qualitygate.Update, qualitygate.Update_setDefault. run_method.
    rewrite bool_decide_eq_false_2 by done. simpl.
    rewrite bool_decide_eq_false_2 by (by intros ?). simpl.
    rewrite Hdefault. simpl. fold opt.
    by destruct (instance.SetAsDefault _ opt srv) as [[e|] srv2].
  - intros c cr srv log srv1 rename opt r Hname Hdiffers Hrename Hdefault. subst r.
    unfold qualitygate.Update, qualitygate.Update_setDefault. run_method.
    rewrite bool_decide_eq_false_2 by done. simpl.
    rewrite bool_decide_eq_true_2 by done. simpl. fold rename.
    rewrite Hrename. simpl. rewrite Hdefault. simpl. fold opt.
    by destruct (instance.SetAsDefault _ opt srv1) as [[e|] srv2].
Qed.

Lemma Update_gate_reasserts_default_witness :
  let c := {| qualitygate.qualityGatesClient :=
                fake.client (fake.withSetAsDefaultFn (λ _, None) fake.noCalls) |} in
  let cr :=
    testdata.gate "test-gate" {| gp_Name := "my-sonar-gate"; gp_Default := Some true |}
      (Some "my-sonar-gate") in
  qualitygate.Update c (testdata.start (ManagedQualityGate cr))
  = (Normal (ExternalUpdate_zero, None),
     {| object := ManagedQualityGate cr;
        server := ();
        calls := [CallSetAsDefault {| setdefaultopt_Name := "my-sonar-gate" |}] |}).
Proof.
  intros c cr.
  apply (proj1 (Update_gate_reasserts_default (Srv := unit)) c cr () []).
  - by vm_compute.
  - reflexivity.
  - reflexivity.
Defined.

(** X9. [Update] of the gate controller never touches the default flag
    unless the spec asks for it: when [Default] is nil or false, the only
    remote call it can issue is the Rename call. *)
Theorem Update_gate_default_not_requested {Srv : Type}
    (c : qualitygate.external (Srv := Srv)) cr srv log :
  let rename := {| renameopt_CurrentName := meta.GetExternalName (g_ObjectMeta cr);
                   renameopt_Name := gp_Name (gs_ForProvider (g_Spec cr)) |} in
  let r := qualitygate.Update c
             {| object := ManagedQualityGate cr; server := srv; calls := log |} in
  gp_Default (gs_ForProvider (g_Spec cr)) ≠ Some true →
  calls (snd r) = log ∨ calls (snd r) = log ++ [CallRename rename].
Proof.
  intros rename r Hdefault. subst r.
  unfold qualitygate.Update, qualitygate.Update_setDefault. run_method.
  case_bool_decide; simpl; [by left|].
  case_bool_decide; simpl.
  - fold rename. destruct (instance.Rename _ rename srv) as [[e|] srv1]; simpl;
      [by right|].
    by destruct (gp_Default _) as [[|]|]; simpl; [|right..].
  - by destruct (gp_Default _) as [[|]|]; simpl; [|left..].
Qed.

Lemma Update_gate_default_not_requested_witness :
  let c := {| qualitygate.qualityGatesClient :=
                fake.client testdata.renameWhenNamesDiffer_client |} in
  let r := qualitygate.Update c (testdata.start testdata.renameWhenNamesDiffer_mg) in
  calls (snd r) = []
  ∨ calls (snd r)
    = [] ++ [CallRename {| renameopt_CurrentName := "old-name";
                           renameopt_Name := "new-name" |}].
Proof.
  intros c.
  apply (Update_gate_default_not_requested c
           (testdata.gate "test-gate" {| gp_Name := "new-name"; gp_Default := None |}
              (Some "old-name")) () []).
  by vm_compute.
Defined.

(** X10. [Update] of the condition controller, on a condition that has an
    external name, issues exactly one UpdateCondition call: its Id is the
    external name, its Error and Metric are the desired ones, and its Op
    is the desired operator, or the empty string when [Op] is nil.  The
    error of the call, if any, is returned under the label of the update,
    and the resource is left as it was. *)
Theorem Update_condition_sends_spec {Srv : Type}
    (c : qualitygatecondition.external (Srv := Srv)) cr srv log :
  let params := cs_ForProvider (c_Spec cr) in
  let opt := {| updatecondopt_Id := meta.GetExternalName (c_ObjectMeta cr);
                updatecondopt_Error := cp_Error params;
                updatecondopt_Metric := cp_Metric params;
                updatecondopt_Op := default "" (cp_Op params) |} in
  let r := instance.UpdateCondition (qualitygatecondition.qualityGatesClient c)
             opt srv in
  meta.GetExternalName (c_ObjectMeta cr) ≠ "" →
  qualitygatecondition.Update c
    {| object := ManagedQualityGateCondition cr; server := srv; calls := log |}
  = (Normal (ExternalUpdate_zero,
             errors.Wrap (fst r) qualitygatecondition.errUpdateQualityGateCondition),
     {| object := ManagedQualityGateCondition cr;
        server := snd r;
        calls := log ++ [CallUpdateCondition opt] |}).
Proof.
  intros params opt r Hname. subst r.
  unfold qualitygatecondition.Update. run_method.
  rewrite bool_decide_eq_false_2 by done. simpl.
  unfold instance.GenerateUpdateQualityGateConditionOption. fold params.
  replace (match cp_Op params with Some op => op | None => "" end)
    with (default "" (cp_Op params)) by (by destruct (cp_Op params)).
  fold opt.
  by destruct (instance.UpdateCondition _ opt srv) as [[e|] srv1].
Qed.

Lemma Update_condition_sends_spec_witness :
  let c := {| qualitygatecondition.qualityGatesClient :=
                fake.client fake.noCalls |} in
  let cr :=
    testdata.condition "test-condition"
      {| cp_QualityGateName := Some "test-gate"; cp_QualityGateRef := None;
         cp_QualityGateSelector := None; cp_Error := "80";
         cp_Metric := "coverage"; cp_Op := None |}
      (Some "cond-123") in
  qualitygatecondition.Update c (testdata.start (ManagedQualityGateCondition cr))
  = (Normal (ExternalUpdate_zero,
             Some (errors.withMessage fake.unexpected
                     qualitygatecondition.errUpdateQualityGateCondition)),
     {| object := ManagedQualityGateCondition cr;
        server := ();
        calls := [CallUpdateCondition
                    {| updatecondopt_Id := "cond-123";
                       updatecondopt_Error := "80";
                       updatecondopt_Metric := "coverage";
                       updatecondopt_Op := "" |}] |}).
Proof.
  intros c cr. apply (Update_condition_sends_spec c cr () []). by vm_compute.
Defined.

End UpdateWitnessesAndCases.

Section CreateDeleteProperties.

Import sonargo v1alpha1 managed.

(** X11. When the remote create operation fails, [Create] of either
    controller returns the error under the label of the creation and
    stops: the external name is not set, and the gate controller does not
    go on to the default flag even when the spec asks for it.  The only
    change to the resource is the Creating condition. *)
Theorem Create_failure_sets_no_identity {Srv : Type} :
  (∀ (c : qualitygate.external (Srv := Srv)) cr srv log created e srv1,
      let opts := {| createopt_Name := gp_Name (gs_ForProvider (g_Spec cr)) |} in
      instance.Create (qualitygate.qualityGatesClient c) opts srv
      = ((created, Some e), srv1) →
      qualitygate.Create c
        {| object := ManagedQualityGate cr; server := srv; calls := log |}
      = (Normal (ExternalCreation_zero,
                 Some (errors.withMessage e qualitygate.errCreateQualityGate)),
         {| object := ManagedQualityGate (QualityGate_SetConditions xpv1.Creating cr);
            server := srv1;
            calls := log ++ [CallCreate opts] |}))
  ∧ (∀ (c : qualitygatecondition.external (Srv := Srv)) cr srv log gateName
       created e srv1,
      let params := cs_ForProvider (c_Spec cr) in
      let opts := {| createcondopt_GateName := gateName;
                     createcondopt_Error := cp_Error params;
                     createcondopt_Metric := cp_Metric params;
                     createcondopt_Op := default "" (cp_Op params) |} in
      cp_QualityGateName params = Some gateName →
      instance.CreateCondition (qualitygatecondition.qualityGatesClient c) opts srv
      = ((created, Some e), srv1) →
      qualitygatecondition.Create c
        {| object := ManagedQualityGateCondition cr; server := srv; calls := log |}
      = (Normal (ExternalCreation_zero,
                 Some (errors.withMessage e
                         qualitygatecondition.errCreateQualityGateCondition)),
         {| object :=
              ManagedQualityGateCondition
                (QualityGateCondition_SetConditions xpv1.Creating cr);
            server := srv1;
            calls := log ++ [CallCreateCondition opts] |})).
Proof.
  split.
  - intros c cr srv log created e srv1 opts Hcreate.
    unfold qualitygate.Create. run_method.
    unfold instance.GenerateQualityGateCreateOptions. fold opts.
    by rewrite Hcreate.
  - intros c cr srv log gateName created e srv1 params opts Hgate Hcreate.
    unfold qualitygatecondition.Create. run_method.
    unfold instance.GenerateCreateQualityGateConditionOption. fold params.
    rewrite Hgate. simpl.
    replace (match cp_Op params with Some op => op | None => "" end)
      with (default "" (cp_Op params)) by (by destruct (cp_Op params)).
    fold opts. by rewrite Hcreate.
Qed.

Lemma Create_failure_sets_no_identity_witness :
  let c := {| qualitygate.qualityGatesClient :=
                fake.client
                  (fake.withCreateFn (λ _, (None, Some (errors.New "create error")))
                     fake.noCalls) |} in
  let cr :=
    testdata.gate "test-gate" {| gp_Name := "test-gate"; gp_Default := Some true |}
      None in
  qualitygate.Create c (testdata.start (ManagedQualityGate cr))
  = (Normal (ExternalCreation_zero,
             Some (errors.withMessage (errors.New "create error")
                     qualitygate.errCreateQualityGate)),
     {| object := ManagedQualityGate (QualityGate_SetConditions xpv1.Creating cr);
        server := ();
        calls := [CallCreate {| createopt_Name := "test-gate" |}] |}).
Proof.
  intros c cr.
  apply (proj1 (Create_failure_sets_no_identity (Srv := unit))
           c cr () [] None (errors.New "create error") ()).
  reflexivity.
Defined.

(** X12. The controllers read the object that the client returns without
    a nil check.  When the client returns neither an object nor an error,
    [Observe] and [Create] of either controller panic; [Create] has then
    issued its call, and the external name is not set. *)
Theorem Methods_panic_on_nil_object `{helpers.Helpers} {Srv : Type} :
  (∀ (c : qualitygate.external (Srv := Srv)) cr srv log srv1,
      let opt := {| showopt_Name := meta.GetExternalName (g_ObjectMeta cr) |} in
      meta.GetExternalName (g_ObjectMeta cr) ≠ "" →
      instance.Show (qualitygate.qualityGatesClient c) opt srv = ((None, None), srv1) →
      qualitygate.Observe c
        {| object := ManagedQualityGate cr; server := srv; calls := log |}
      = (Panic nilDereference,
         {| object := ManagedQualityGate cr;
            server := srv1;
            calls := log ++ [CallShow opt] |}))
  ∧ (∀ (c : qualitygatecondition.external (Srv := Srv)) cr srv log srv1,
      let opt := {| showopt_Name := meta.GetExternalName (c_ObjectMeta cr) |} in
      meta.GetExternalName (c_ObjectMeta cr) ≠ "" →
      instance.Show (qualitygatecondition.qualityGatesClient c) opt srv
      = ((None, None), srv1) →
      qualitygatecondition.Observe c
        {| object := ManagedQualityGateCondition cr; server := srv; calls := log |}
      = (Panic nilDereference,
         {| object := ManagedQualityGateCondition cr;
            server := srv1;
            calls := log ++ [CallShow opt] |}))
  ∧ (∀ (c : qualitygate.external (Srv := Srv)) cr srv log srv1,
      let opts := {| createopt_Name := gp_Name (gs_ForProvider (g_Spec cr)) |} in
      instance.Create (qualitygate.qualityGatesClient c) opts srv
      = ((None, None), srv1) →
      qualitygate.Create c
        {| object := ManagedQualityGate cr; server := srv; calls := log |}
      = (Panic nilDereference,
         {| object := ManagedQualityGate (QualityGate_SetConditions xpv1.Creating cr);
            server := srv1;
            calls := log ++ [CallCreate opts] |})).
Proof.
  split; [|split].
  - intros c cr srv log srv1 opt Hname Hshow.
    unfold qualitygate.Observe. run_method.
    rewrite bool_decide_eq_false_2 by done. simpl. fold opt.
    by rewrite Hshow.
  - intros c cr srv log srv1 opt Hname Hshow.
    unfold qualitygatecondition.Observe. run_method.
    rewrite bool_decide_eq_false_2 by done. simpl. fold opt.
    by rewrite Hshow.
  - intros c cr srv log srv1 opts Hcreate.
    unfold qualitygate.Create. run_method.
    unfold instance.GenerateQualityGateCreateOptions. fold opts.
    by rewrite Hcreate.
Qed.

Lemma Methods_panic_on_nil_object_witness :
  let c := {| qualitygate.qualityGatesClient :=
                fake.client (fake.withShowFn (λ _, (None, None)) fake.noCalls) |} in
  let cr :=
    testdata.gate "test-gate" {| gp_Name := "test-gate"; gp_Default := None |}
      (Some "test-gate") in
  qualitygate.Observe (H := helpers.spec_helpers) c
    (testdata.start (ManagedQualityGate cr))
  = (Panic nilDereference,
     {| object := ManagedQualityGate cr;
        server := ();
        calls := [CallShow {| showopt_Name := "test-gate" |}] |}).
Proof.
  intros c cr.
  apply (proj1 (Methods_panic_on_nil_object (H := helpers.spec_helpers) (Srv := unit))
           c cr () [] ()).
  - by vm_compute.
  - reflexivity.
Defined.

(** X13. Every method of a controller starts by asserting the kind of the
    resource.  Handed a resource of another kind (the gate controller a
    condition, the condition controller a gate, either of them anything
    else), [Observe], [Create], [Update] and [Delete] return the error
    that the resource is not of the controller's kind, issue no remote
    call and leave the resource as it was. *)
Theorem Methods_reject_other_kinds `{helpers.Helpers} {Srv : Type} :
  (∀ (c : qualitygate.external (Srv := Srv)) (w : World Srv Managed),
      asQualityGate (object w) = None →
      let err := Some (errors.New qualitygate.errNotQualityGate) in
      qualitygate.Observe c w = (Normal (ExternalObservation_zero, err), w)
      ∧ qualitygate.Create c w = (Normal (ExternalCreation_zero, err), w)
      ∧ qualitygate.Update c w = (Normal (ExternalUpdate_zero, err), w)
      ∧ qualitygate.Delete c w = (Normal (ExternalDelete_zero, err), w))
  ∧ (∀ (c : qualitygatecondition.external (Srv := Srv)) (w : World Srv Managed),
      asQualityGateCondition (object w) = None →
      let err := Some (errors.New qualitygatecondition.errNotQualityGateCondition) in
      qualitygatecondition.Observe c w = (Normal (ExternalObservation_zero, err), w)
      ∧ qualitygatecondition.Create c w = (Normal (ExternalCreation_zero, err), w)
      ∧ qualitygatecondition.Update c w = (Normal (ExternalUpdate_zero, err), w)
      ∧ qualitygatecondition.Delete c w = (Normal (ExternalDelete_zero, err), w)).
Proof.
  split; intros c w Hkind err.
  - unfold qualitygate.Observe, qualitygate.Create, qualitygate.Update,
      qualitygate.Delete, asserting.
    by rewrite Hkind.
  - unfold qualitygatecondition.Observe, qualitygatecondition.Create,
      qualitygatecondition.Update, qualitygatecondition.Delete, asserting.
    by rewrite Hkind.
Qed.

Lemma Methods_reject_other_kinds_witness :
  let c := {| qualitygate.qualityGatesClient := fake.client fake.noCalls |} in
  let w := testdata.start testdata.conditionExists_mg in
  let err := Some (errors.New qualitygate.errNotQualityGate) in
  qualitygate.Observe (H := helpers.spec_helpers) c w
  = (Normal (ExternalObservation_zero, err), w)
  ∧ qualitygate.Create c w = (Normal (ExternalCreation_zero, err), w)
  ∧ qualitygate.Update c w = (Normal (ExternalUpdate_zero, err), w)
  ∧ qualitygate.Delete c w = (Normal (ExternalDelete_zero, err), w).
Proof.
  intros c w.
  apply (proj1 (Methods_reject_other_kinds (H := helpers.spec_helpers) (Srv := unit))
           c w).
  reflexivity.
Defined.

(** X14. [Delete] of the condition controller, on a condition that has an
    external name, issues exactly one DeleteCondition call keyed by the
    external name, returns its error, if any, under the label of the
    deletion, and keeps the external name and the spec: the only change to
    the resource is the Deleting condition. *)
Theorem Delete_condition_by_external_name {Srv : Type}
    (c : qualitygatecondition.external (Srv := Srv)) cr srv log :
  let opt := {| deletecondopt_Id := meta.GetExternalName (c_ObjectMeta cr) |} in
  let r := instance.DeleteCondition (qualitygatecondition.qualityGatesClient c)
             opt srv in
  let r' := qualitygatecondition.Delete c
              {| object := ManagedQualityGateCondition cr; server := srv; calls := log |} in
  meta.GetExternalName (c_ObjectMeta cr) ≠ "" →
  fst r'
  = Normal (ExternalDelete_zero,
            errors.Wrap (fst r) qualitygatecondition.errDeleteQualityGateCondition)
  ∧ calls (snd r') = log ++ [CallDeleteCondition opt]
  ∧ server (snd r') = snd r
  ∧ object (snd r')
    = ManagedQualityGateCondition
        (QualityGateCondition_SetConditions xpv1.Deleting cr)
  ∧ meta.GetExternalName (ObjectMetaOf (object (snd r')))
    = meta.GetExternalName (c_ObjectMeta cr).
Proof.
  intros opt r r' Hname. subst r r'.
  unfold qualitygatecondition.Delete. run_method.
  rewrite bool_decide_eq_false_2 by done.
  unfold instance.GenerateDeleteQualityGateConditionOption. simpl. fold opt.
  by destruct (instance.DeleteCondition _ opt srv) as [[e|] srv1].
Qed.

Lemma Delete_condition_by_external_name_witness :
  let c := {| qualitygatecondition.qualityGatesClient :=
                fake.client (fake.withDeleteConditionFn (λ _, None) fake.noCalls) |} in
  let r' := qualitygatecondition.Delete c
              (testdata.start testdata.conditionExists_mg) in
  fst r' = Normal (ExternalDelete_zero, None)
  ∧ calls (snd r') = [CallDeleteCondition {| deletecondopt_Id := "cond-123" |}]
  ∧ meta.GetExternalName (ObjectMetaOf (object (snd r'))) = "cond-123".
Proof.
  intros c r'.
  destruct (Delete_condition_by_external_name c
              (testdata.condition "test-condition"
                 {| cp_QualityGateName := Some "test-gate";
                    cp_QualityGateRef := None;
                    cp_QualityGateSelector := None;
                    cp_Error := "80";
                    cp_Metric := "coverage";
                    cp_Op := Some "LT" |}
                 (Some "cond-123")) () [])
    as (Hresult & Hcalls & _ & _ & Hname); [by vm_compute|].
  exact (conj Hresult (conj Hcalls Hname)).
Defined.

(** X15. When the gate name is set and the remote create operation
    succeeds, [Create] of the condition controller issues exactly one
    CreateCondition call, carrying the gate name, [Error], [Metric] and
    the operator (the empty string when [Op] is nil), and stores the ID of
    the returned condition as the external name. *)
Theorem Create_condition_stores_returned_ID {Srv : Type}
    (c : qualitygatecondition.external (Srv := Srv)) cr srv log gateName created srv1 :
  let params := cs_ForProvider (c_Spec cr) in
  let opts := {| createcondopt_GateName := gateName;
                 createcondopt_Error := cp_Error params;
                 createcondopt_Metric := cp_Metric params;
                 createcondopt_Op := default "" (cp_Op params) |} in
  let r := qualitygatecondition.Create c
             {| object := ManagedQualityGateCondition cr; server := srv; calls := log |} in
  cp_QualityGateName params = Some gateName →
  instance.CreateCondition (qualitygatecondition.qualityGatesClient c) opts srv
  = ((Some created, None), srv1) →
  fst r = Normal (ExternalCreation_zero, None)
  ∧ calls (snd r) = log ++ [CallCreateCondition opts]
  ∧ meta.GetExternalName (ObjectMetaOf (object (snd r))) = createdcond_ID created.
Proof.
  intros params opts r Hgate Hcreate. subst r.
  rewrite (qualitygatecondition_Create_succeeds c cr srv log gateName created srv1
             Hgate Hcreate).
  simpl. repeat split.
  unfold meta.GetExternalName. simpl. by rewrite lookup_insert_eq.
Qed.

Lemma Create_condition_stores_returned_ID_witness :
  let created := {| createdcond_Error := "80"; createdcond_ID := "cond-123";
                    createdcond_Metric := "coverage"; createdcond_Op := "" |} in
  let c := {| qualitygatecondition.qualityGatesClient :=
                fake.client
                  (fake.withCreateConditionFn (λ _, (Some created, None))
                     fake.noCalls) |} in
  let cr :=
    testdata.condition "test-condition"
      {| cp_QualityGateName := Some "test-gate"; cp_QualityGateRef := None;
         cp_QualityGateSelector := None; cp_Error := "80";
         cp_Metric := "coverage"; cp_Op := None |}
      None in
  let r := qualitygatecondition.Create c
             (testdata.start (ManagedQualityGateCondition cr)) in
  fst r = Normal (ExternalCreation_zero, None)
  ∧ calls (snd r)
    = [CallCreateCondition
         {| createcondopt_GateName := "test-gate"; createcondopt_Error := "80";
            createcondopt_Metric := "coverage"; createcondopt_Op := "" |}]
  ∧ meta.GetExternalName (ObjectMetaOf (object (snd r))) = "cond-123".
Proof.
  intros created c cr.
  apply (Create_condition_stores_returned_ID c cr () [] "test-gate" created ()).
  - reflexivity.
  - reflexivity.
Defined.

End CreateDeleteProperties.

(** * Further properties of package instance *)

Section MappingProperties.

Import sonargo v1alpha1 instance.

(** X16. What [FindQualityGateConditionObservation] finds carries the ID
    that was asked for, and is one of the observations that
    [GenerateQualityGateConditionsObservation] makes of the same list: the
    condition controller stores in its status an element of what the gate
    controller stores in its own. *)
Theorem Find_result_is_observed id (condition : list QualitygatesShowObject_sub2)
    observation :
  FindQualityGateConditionObservation id condition = (observation, None) →
  co_ID observation = id
  ∧ observation ∈ GenerateQualityGateConditionsObservation condition.
Proof.
  unfold GenerateQualityGateConditionsObservation.
  induction condition as [|cond rest IH]; simpl; [done|].
  case_bool_decide as Hid.
  - intros [= <-]. split; [done|]. apply list_elem_of_here.
  - intros Hfound. destruct (IH Hfound) as [Hsame Helem].
    split; [done|]. by apply list_elem_of_further.
Qed.

Lemma Find_result_is_observed_witness :
  let conditions :=
    [{| sub2_Error := "80"; sub2_ID := "1"; sub2_Metric := "coverage";
        sub2_Op := "LT" |};
     {| sub2_Error := "3"; sub2_ID := "2";
        sub2_Metric := "duplicated_lines_density"; sub2_Op := "GT" |}] in
  let observation :=
    {| co_Error := "3"; co_ID := "2"; co_Metric := "duplicated_lines_density";
       co_Op := "GT" |} in
  co_ID observation = "2"
  ∧ observation ∈ GenerateQualityGateConditionsObservation conditions.
Proof.
  intros conditions observation.
  apply (Find_result_is_observed "2" conditions observation). reflexivity.
Defined.

(** X17. With the helpers of the spec, late initialization does not change
    what the comparator says: for a gate and for a condition alike, the
    specification is up to date with an observation after it has been
    late-initialized from that observation exactly when it was before. *)
Theorem LateInitialize_keeps_verdict :
  (∀ spec observation,
      IsQualityGateUpToDate (H := helpers.spec_helpers)
        (LateInitializeQualityGate (H := helpers.spec_helpers) spec observation)
        observation
      = IsQualityGateUpToDate (H := helpers.spec_helpers) spec observation)
  ∧ (∀ params observation,
      IsQualityGateConditionUpToDate (H := helpers.spec_helpers)
        (LateInitializeQualityGateCondition (H := helpers.spec_helpers)
           params observation)
        observation
      = IsQualityGateConditionUpToDate (H := helpers.spec_helpers) params observation).
Proof.
  split.
  - intros [[name [default|]]|] [observation|]; simpl; try done.
    by repeat case_bool_decide.
  - intros [[gateName ref selector error metric [op|]]|] [observation|]; simpl;
      try done.
    by repeat case_bool_decide.
Qed.

(** X18. With the helpers of the spec, late initialization from an
    observation that is not nil leaves the optional field set, and a
    second late initialization, from any observation, changes nothing
    more. *)
Theorem LateInitialize_fills_once :
  (∀ spec observation other,
      let once := LateInitializeQualityGate (H := helpers.spec_helpers)
                    (Some spec) (Some observation) in
      (∃ spec', once = Some spec' ∧ is_Some (gp_Default spec'))
      ∧ LateInitializeQualityGate (H := helpers.spec_helpers) once other = once)
  ∧ (∀ params observation other,
      let once := LateInitializeQualityGateCondition (H := helpers.spec_helpers)
                    (Some params) (Some observation) in
      (∃ params', once = Some params' ∧ is_Some (cp_Op params'))
      ∧ LateInitializeQualityGateCondition (H := helpers.spec_helpers) once other
        = once).
Proof.
  split.
  - intros [name [default|]] observation [other|]; simpl; split; try done;
      eexists; split; try reflexivity; by eexists.
  - intros [gateName ref selector error metric [op|]] observation [other|]; simpl;
      split; try done; eexists; split; try reflexivity; by eexists.
Qed.

End MappingProperties.

(** * Properties of the reference resolution *)

Section ReferenceProperties.

Import v1alpha1 reference.

(** X19. [ResolveReferences] reads the gate name through the
    [QualityGateName] pointer while it builds the request.  For every
    condition whose [QualityGateName] is nil it panics, whatever the
    resolver would answer, also when a reference or a selector to a gate
    is given. *)
Theorem ResolveReferences_panics_without_gate_name
    (resolver : APINamespacedResolver) (mg : QualityGateCondition) :
  cp_QualityGateName (cs_ForProvider (c_Spec mg)) = None →
  ResolveReferences resolver mg = Panic nilDereference.
Proof.
  intros Hnil. unfold ResolveReferences. by rewrite Hnil.
Qed.

Lemma ResolveReferences_panics_without_gate_name_witness :
  let mg :=
    testdata.condition "test-condition"
      {| cp_QualityGateName := None;
         cp_QualityGateRef :=
           Some {| xpv1.ref_Name := "my-gate"; xpv1.ref_Namespace := "default";
                   xpv1.ref_Policy := None |};
         cp_QualityGateSelector := None; cp_Error := "80";
         cp_Metric := "coverage"; cp_Op := None |}
      None in
  ResolveReferences
    (λ _ req, ({| rsp_ResolvedValue := "my-sonar-gate";
                  rsp_ResolvedReference := req_Reference req |}, None))
    mg
  = Panic nilDereference.
Proof.
  intros mg. apply ResolveReferences_panics_without_gate_name. reflexivity.
Defined.

(** X20. When the resolver fails, [ResolveReferences] returns its error
    under the label of the reference resolution and leaves the condition
    as it was. *)
Theorem ResolveReferences_failure_changes_nothing
    (resolver : APINamespacedResolver) (mg : QualityGateCondition) name rsp e :
  let params := cs_ForProvider (c_Spec mg) in
  cp_QualityGateName params = Some name →
  resolver mg {| req_CurrentValue := name;
                 req_Reference := cp_QualityGateRef params;
                 req_Selector := cp_QualityGateSelector params |}
  = (rsp, Some e) →
  ResolveReferences resolver mg
  = Normal (Some (errors.withMessage e errResolveQualityGateRef), mg).
Proof.
  intros params Hname Hresolve. unfold ResolveReferences.
  fold params. rewrite Hname. simpl. by rewrite Hresolve.
Qed.

Lemma ResolveReferences_failure_changes_nothing_witness :
  let mg :=
    testdata.condition "test-condition"
      {| cp_QualityGateName := Some "my-sonar-gate";
         cp_QualityGateRef :=
           Some {| xpv1.ref_Name := "my-gate"; xpv1.ref_Namespace := "default";
                   xpv1.ref_Policy := None |};
         cp_QualityGateSelector := None; cp_Error := "80";
         cp_Metric := "coverage"; cp_Op := None |}
      None in
  let rsp := {| rsp_ResolvedValue := ""; rsp_ResolvedReference := None |} in
  ResolveReferences (λ _ _, (rsp, Some (errors.New "not found"))) mg
  = Normal (Some (errors.withMessage (errors.New "not found")
                    errResolveQualityGateRef), mg).
Proof.
  intros mg rsp.
  apply (ResolveReferences_failure_changes_nothing _ mg "my-sonar-gate" rsp
           (errors.New "not found")).
  - reflexivity.
  - reflexivity.
Defined.

(** X21. When the resolver succeeds, [ResolveReferences] returns no error
    and overwrites two fields of the condition: [QualityGateName] becomes
    the resolved value, and [QualityGateRef] the resolved reference.  The
    request carries the current gate name, the reference and the selector
    of the spec; the selector, [Error], [Metric], [Op], the metadata and
    the status of the condition are left as they were. *)
Theorem ResolveReferences_success_sets_name_and_reference
    (resolver : APINamespacedResolver) (mg : QualityGateCondition) name rsp :
  let params := cs_ForProvider (c_Spec mg) in
  cp_QualityGateName params = Some name →
  resolver mg {| req_CurrentValue := name;
                 req_Reference := cp_QualityGateRef params;
                 req_Selector := cp_QualityGateSelector params |}
  = (rsp, None) →
  ResolveReferences resolver mg
  = Normal (None,
            {| c_ObjectMeta := c_ObjectMeta mg;
               c_Spec :=
                 {| cs_ForProvider :=
                      {| cp_QualityGateName := Some (rsp_ResolvedValue rsp);
                         cp_QualityGateRef := rsp_ResolvedReference rsp;
                         cp_QualityGateSelector := cp_QualityGateSelector params;
                         cp_Error := cp_Error params;
                         cp_Metric := cp_Metric params;
                         cp_Op := cp_Op params |} |};
               c_Status := c_Status mg |}).
Proof.
  intros params Hname Hresolve. unfold ResolveReferences.
  fold params. rewrite Hname. simpl. by rewrite Hresolve.
Qed.

Lemma ResolveReferences_success_sets_name_and_reference_witness :
  let reference :=
    {| xpv1.ref_Name := "my-gate"; xpv1.ref_Namespace := "default";
       xpv1.ref_Policy := None |} in
  let params :=
    {| cp_QualityGateName := Some "old-gate";
       cp_QualityGateRef := Some reference;
       cp_QualityGateSelector := None; cp_Error := "80";
       cp_Metric := "coverage"; cp_Op := Some "LT" |} in
  let mg := testdata.condition "test-condition" params None in
  ResolveReferences
    (λ _ req, ({| rsp_ResolvedValue := "my-sonar-gate";
                  rsp_ResolvedReference := req_Reference req |}, None))
    mg
  = Normal (None,
            testdata.condition "test-condition"
              {| cp_QualityGateName := Some "my-sonar-gate";
                 cp_QualityGateRef := Some reference;
                 cp_QualityGateSelector := None; cp_Error := "80";
                 cp_Metric := "coverage"; cp_Op := Some "LT" |}
              None).
Proof.
  intros reference params mg.
  apply (ResolveReferences_success_sets_name_and_reference _ mg "old-gate"
           {| rsp_ResolvedValue := "my-sonar-gate";
              rsp_ResolvedReference := Some reference |}).
  - reflexivity.
  - reflexivity.
Defined.

End ReferenceProperties.

(** * Properties of package common *)

(** Unfolds the statements of package common down to the cluster they act
    on. *)
Ltac run_common :=
  unfold common.GetConfig, common.UseProviderConfig, common.buildConfigFromSpec,
    common.GetTokenValueFromLocalSecret, common.GetTokenValueFromSecret,
    common.get, common.track, common.eval,
    mbind, managed.M_bind, mret, managed.M_ret;
  simpl.

(** Closes a branch that returns an error and no value. *)
Ltac returns_error :=
  eexists _, _; (split; [reflexivity|]);
  split; [split; [by intros [??]|done]|done].

Section ConfigProperties.

Import managed common.

Context {K : Type}.

Implicit Types (client : Client K) (w : Cluster K).

Lemma buildConfigFromSpec_config_or_error client m spec w :
  ∃ config err,
    fst (buildConfigFromSpec client m spec w) = Normal (config, err)
    ∧ (is_Some config ↔ err = None)
    ∧ (∀ cfg, config = Some cfg → Token cfg ≠ "").
Proof.
  run_common.
  destruct (Track client (Modern m) (kube w)) as [[e|] k1]; simpl;
    [returns_error|].
  case_bool_decide; simpl; [|returns_error].
  destruct (pcs_Credentials_SecretRef spec) as [selector|]; simpl; [|returns_error].
  destruct (GetSecret client _ k1) as [e|secret]; simpl; [returns_error|].
  destruct (secret_Data secret !! sks_Key selector) as [[data|]|]; simpl;
    [|returns_error..].
  case_bool_decide; simpl; [returns_error|].
  eexists _, _. split; [reflexivity|]. split; [done|]. by intros cfg [= <-].
Qed.

Lemma GetConfig_config_or_error client m w :
  ∃ config err,
    fst (GetConfig client m w) = Normal (config, err)
    ∧ (is_Some config ↔ err = None)
    ∧ (∀ cfg, config = Some cfg → Token cfg ≠ "").
Proof.
  destruct m as [[namespace [[kind name]|]]|namespace];
    [|unfold GetConfig; simpl; returns_error..].
  unfold GetConfig, UseProviderConfig, common.get, common.eval,
    mbind, managed.M_bind. simpl.
  case_bool_decide; simpl.
  - destruct (GetClusterProviderConfig client _ (kube w)) as [e|spec]; simpl;
      [returns_error|].
    apply buildConfigFromSpec_config_or_error.
  - destruct (GetProviderConfig client _ (kube w)) as [e|spec]; simpl;
      [returns_error|].
    apply buildConfigFromSpec_config_or_error.
Qed.

(** X22. [GetTokenValueFromSecret] reads one secret, the one that the
    selector names in the selector's namespace, and does not change the
    cluster.  It returns a token exactly when that secret exists and
    holds a value that is not nil under the selector's key, and the token
    is that value; otherwise it returns an error and no token.  With a nil
    selector it returns an error without reading anything. *)
Theorem GetTokenValueFromSecret_returns_stored_value client m w :
  (∀ selector,
      let key := {| nn_Namespace := sks_Namespace selector;
                    nn_Name := sks_Name selector |} in
      let r := GetTokenValueFromSecret client m (Some selector) w in
      snd r = {| kube := kube w; accesses := accesses w ++ [AccessSecret key] |}
      ∧ (∃ token err,
            fst r = Normal (token, err) ∧ (is_Some token ↔ err = None))
      ∧ (∀ data,
            fst r = Normal (Some data, None)
            ↔ ∃ secret,
                GetSecret client key (kube w) = inr secret
                ∧ secret_Data secret !! sks_Key selector = Some (Some data)))
  ∧ GetTokenValueFromSecret client m None w
    = (Normal (None, Some (errors.New ErrSecretSelectorNil)), w).
Proof.
  split; [|done].
  intros selector key r. subst r. run_common. fold key.
  destruct (GetSecret client key (kube w)) as [e|secret]; simpl.
  - split; [done|]. split.
    + eexists _, _. split; [reflexivity|]. split; [by intros [??]|done].
    + intros data. split; [done|]. by intros (secret & [=] & _).
  - destruct (secret_Data secret !! sks_Key selector) as [[stored|]|] eqn:Hstored;
      simpl; (split; [done|]); split.
    + eexists _, _. split; [reflexivity|]. by split.
    + intros data. split.
      * intros [= <-]. by exists secret.
      * intros (secret' & [= <-] & Hdata). rewrite Hstored in Hdata. by simplify_eq.
    + eexists _, _. split; [reflexivity|]. split; [by intros [??]|done].
    + intros data. split; [done|].
      intros (secret' & [= <-] & Hdata). rewrite Hstored in Hdata. by simplify_eq.
    + eexists _, _. split; [reflexivity|]. split; [by intros [??]|done].
    + intros data. split; [done|].
      intros (secret' & [= <-] & Hdata). rewrite Hstored in Hdata. by simplify_eq.
Qed.

(** X23. [GetTokenValueFromLocalSecret] looks for the secret in the
    namespace of the managed resource: the one access it makes is to the
    secret of the selector's name in that namespace, and what it returns
    is what [GetTokenValueFromSecret] returns for that secret and the
    selector's key.  With a nil selector it returns an error without
    reading anything. *)
Theorem GetTokenValueFromLocalSecret_reads_resource_namespace client m w :
  (∀ l,
      let r := GetTokenValueFromLocalSecret client m (Some l) w in
      accesses (snd r)
      = accesses w ++ [AccessSecret {| nn_Namespace := GetNamespace m;
                                       nn_Name := lsks_Name l |}]
      ∧ r = GetTokenValueFromSecret client m
              (Some {| sks_Name := lsks_Name l;
                       sks_Namespace := GetNamespace m;
                       sks_Key := lsks_Key l |}) w)
  ∧ GetTokenValueFromLocalSecret client m None w
    = (Normal (None, Some (errors.New ErrSecretSelectorNil)), w).
Proof.
  split; [|done].
  intros l r. subst r. split; [|done]. run_common.
  destruct (GetSecret client _ (kube w)) as [e|secret]; simpl; [done|].
  by destruct (secret_Data secret !! lsks_Key l) as [[stored|]|].
Qed.

(** X24. [GetConfig] never panics and returns either a configuration or
    an error, never both and never neither; and a configuration that it
    returns never has an empty token. *)
Theorem GetConfig_returns_config_or_error client m w :
  ∃ config err,
    fst (GetConfig client m w) = Normal (config, err)
    ∧ (is_Some config ↔ err = None)
    ∧ (∀ cfg, config = Some cfg → Token cfg ≠ "").
Proof. apply GetConfig_config_or_error. Qed.

(** X25. [GetConfig] first reads the provider config that the reference
    names: a reference of kind ClusterProviderConfig is looked up by its
    name alone, a reference of any other kind, the empty kind included, as
    a ProviderConfig of that name in the namespace of the managed
    resource.  When that read fails, the error is returned under a label
    that names the kind, and nothing else is accessed. *)
Theorem GetConfig_reads_referenced_provider_config client w namespace reference :
  let m := {| mm_Namespace := namespace;
              mm_ProviderConfigReference := Some reference |} in
  let r := GetConfig client (Modern m) w in
  let clusterKey := {| nn_Namespace := ""; nn_Name := pcr_Name reference |} in
  let key := {| nn_Namespace := namespace; nn_Name := pcr_Name reference |} in
  (pcr_Kind reference = "ClusterProviderConfig" →
     (∃ rest, accesses (snd r)
              = accesses w ++ AccessClusterProviderConfig clusterKey :: rest)
     ∧ ∀ e, GetClusterProviderConfig client clusterKey (kube w) = inl e →
            r = (Normal (None,
                         Some (errors.withMessage e
                                 "cannot get referenced ClusterProviderConfig")),
                 {| kube := kube w;
                    accesses := accesses w ++ [AccessClusterProviderConfig clusterKey] |}))
  ∧ (pcr_Kind reference ≠ "ClusterProviderConfig" →
     (∃ rest, accesses (snd r) = accesses w ++ AccessProviderConfig key :: rest)
     ∧ ∀ e, GetProviderConfig client key (kube w) = inl e →
            r = (Normal (None,
                         Some (errors.withMessage e
                                 "cannot get referenced ProviderConfig")),
                 {| kube := kube w;
                    accesses := accesses w ++ [AccessProviderConfig key] |})).
Proof.
  intros m r clusterKey key. subst r.
  assert (Hbuild : ∀ spec w0,
    ∃ rest, accesses (snd (buildConfigFromSpec client m spec w0))
            = accesses w0 ++ rest).
  { intros spec w0. run_common.
    destruct (Track client (Modern m) (kube w0)) as [[e|] k1]; simpl; [by eexists|].
    case_bool_decide; simpl; [|by eexists].
    destruct (pcs_Credentials_SecretRef spec) as [selector|]; simpl; [|by eexists].
    destruct (GetSecret client _ k1) as [e|secret]; simpl;
      [rewrite <-app_assoc; by eexists|].
    destruct (secret_Data secret !! sks_Key selector) as [[data|]|]; simpl;
      [|rewrite <-app_assoc; by eexists..].
    case_bool_decide; simpl; rewrite <-app_assoc; by eexists. }
  split; intros Hkind.
  - unfold GetConfig, UseProviderConfig, common.get, common.eval,
      mbind, managed.M_bind. simpl.
    rewrite bool_decide_eq_true_2 by done. simpl. fold clusterKey.
    destruct (GetClusterProviderConfig client clusterKey (kube w)) as [e|spec]; simpl.
    + split; [by exists []|]. by intros e' [= <-].
    + split; [|done].
      destruct (Hbuild spec
                  {| kube := kube w;
                     accesses := accesses w ++ [AccessClusterProviderConfig clusterKey] |})
        as [rest Hrest].
      exists rest. rewrite Hrest. simpl. by rewrite <-app_assoc.
  - unfold GetConfig, UseProviderConfig, common.get, common.eval,
      mbind, managed.M_bind. simpl.
    rewrite bool_decide_eq_false_2 by done. simpl. fold key.
    destruct (GetProviderConfig client key (kube w)) as [e|spec]; simpl.
    + split; [by exists []|]. by intros e' [= <-].
    + split; [|done].
      destruct (Hbuild spec
                  {| kube := kube w;
                     accesses := accesses w ++ [AccessProviderConfig key] |})
        as [rest Hrest].
      exists rest. rewrite Hrest. simpl. by rewrite <-app_assoc.
Qed.

End ConfigProperties.

Section ConfigPaths.

Import managed common.

Lemma GetConfig_reads_referenced_provider_config_witness :
  let emptyCluster : Client unit :=
    {| GetSecret := λ _ _, inl (errors.New "not found");
       GetProviderConfig := λ _ _, inl (errors.New "not found");
       GetClusterProviderConfig := λ _ _, inl (errors.New "not found");
       Track := λ _ k, (None, k) |} in
  let m := {| mm_Namespace := "team-a";
              mm_ProviderConfigReference :=
                Some {| pcr_Kind := "ProviderConfig"; pcr_Name := "sonar" |} |} in
  let key := {| nn_Namespace := "team-a"; nn_Name := "sonar" |} in
  GetConfig emptyCluster (Modern m) {| kube := (); accesses := [] |}
  = (Normal (None,
             Some (errors.withMessage (errors.New "not found")
                     "cannot get referenced ProviderConfig")),
     {| kube := (); accesses := [AccessProviderConfig key] |}).
Proof.
  intros emptyCluster m key.
  apply (proj2 (proj2 (GetConfig_reads_referenced_provider_config emptyCluster
                         {| kube := (); accesses := [] |} "team-a"
                         {| pcr_Kind := "ProviderConfig"; pcr_Name := "sonar" |})
                  ltac:(by vm_compute))).
  reflexivity.
Defined.

(** X26. [buildConfigFromSpec] tracks the usage of the provider config
    before it looks at the credentials.  When tracking fails, it returns
    the error under the label of the tracking and reads no secret; when
    the credentials source is not Secret, it returns an error that names
    the source, again without reading a secret; and when the source is
    Secret but no secret is referenced, it returns an error likewise. *)
Theorem buildConfigFromSpec_tracks_before_reading {K : Type}
    (client : Client K) m spec (w : Cluster K) :
  let tracked := Track client (Modern m) (kube w) in
  let after := {| kube := snd tracked;
                  accesses := accesses w ++ [AccessTrack (Modern m)] |} in
  (∀ e, fst tracked = Some e →
        buildConfigFromSpec client m spec w
        = (Normal (None,
                   Some (errors.withMessage e "cannot track ProviderConfig usage")),
           after))
  ∧ (fst tracked = None →
     pcs_Credentials_Source spec ≠ CredentialsSourceSecret →
     buildConfigFromSpec client m spec w
     = (Normal (None,
                Some (errors.New ("credentials source " +:+ pcs_Credentials_Source spec
                                  +:+ " is not currently supported"))),
        after))
  ∧ (fst tracked = None →
     pcs_Credentials_Source spec = CredentialsSourceSecret →
     pcs_Credentials_SecretRef spec = None →
     buildConfigFromSpec client m spec w
     = (Normal (None, Some (errors.New "no credentials secret referenced")), after)).
Proof.
  intros tracked after. subst tracked after. run_common.
  destruct (Track client (Modern m) (kube w)) as [[e|] k1]; simpl.
  - split; [by intros e' [= <-]|]. by split.
  - split; [done|]. split.
    + intros _ Hsource. by rewrite bool_decide_eq_false_2.
    + intros _ Hsource Hnone. rewrite bool_decide_eq_true_2 by done.
      by rewrite Hnone.
Qed.

Lemma buildConfigFromSpec_tracks_before_reading_witness :
  let emptyCluster : Client unit :=
    {| GetSecret := λ _ _, inl (errors.New "not found");
       GetProviderConfig := λ _ _, inl (errors.New "not found");
       GetClusterProviderConfig := λ _ _, inl (errors.New "not found");
       Track := λ _ k, (None, k) |} in
  let m := {| mm_Namespace := "team-a";
              mm_ProviderConfigReference :=
                Some {| pcr_Kind := "ProviderConfig"; pcr_Name := "sonar" |} |} in
  let spec := {| pcs_Credentials_Source := "Environment";
                 pcs_Credentials_SecretRef := None;
                 pcs_BaseURL := "https://sonar.example.org";
                 pcs_InsecureSkipVerify := None |} in
  buildConfigFromSpec emptyCluster m spec {| kube := (); accesses := [] |}
  = (Normal (None,
             Some (errors.New
                     "credentials source Environment is not currently supported")),
     {| kube := (); accesses := [AccessTrack (Modern m)] |}).
Proof.
  intros emptyCluster m spec.
  apply (proj1 (proj2 (buildConfigFromSpec_tracks_before_reading emptyCluster m spec
                         {| kube := (); accesses := [] |}))).
  - reflexivity.
  - by vm_compute.
Defined.

(** X27. The path on which [GetConfig] succeeds, for a reference that is
    not of kind ClusterProviderConfig: the ProviderConfig of the
    referenced name is read in the namespace of the managed resource, its
    usage is tracked, and the secret that its credentials name is read in
    the namespace that the credentials give.  When the value under the key
    is not empty, the configuration returned carries that value as the
    token and the base URL of the provider config, and skips the TLS
    verification only if the provider config says so. *)
Theorem GetConfig_success_path {K : Type} (client : Client K) (w : Cluster K)
    namespace reference spec selector k1 secret token :
  let m := {| mm_Namespace := namespace;
              mm_ProviderConfigReference := Some reference |} in
  let key := {| nn_Namespace := namespace; nn_Name := pcr_Name reference |} in
  let secretKey := {| nn_Namespace := sks_Namespace selector;
                      nn_Name := sks_Name selector |} in
  pcr_Kind reference ≠ "ClusterProviderConfig" →
  GetProviderConfig client key (kube w) = inr spec →
  Track client (Modern m) (kube w) = (None, k1) →
  pcs_Credentials_Source spec = CredentialsSourceSecret →
  pcs_Credentials_SecretRef spec = Some selector →
  GetSecret client secretKey k1 = inr secret →
  secret_Data secret !! sks_Key selector = Some (Some token) →
  token ≠ "" →
  GetConfig client (Modern m) w
  = (Normal (Some {| Token := token;
                     BaseURL := pcs_BaseURL spec;
                     InsecureSkipVerify := default false (pcs_InsecureSkipVerify spec) |},
             None),
     {| kube := k1;
        accesses := accesses w ++ [AccessProviderConfig key;
                                   AccessTrack (Modern m);
                                   AccessSecret secretKey] |}).
Proof.
  intros m key secretKey Hkind Hconfig Htrack Hsource Href Hsecret Hdata Htoken.
  run_common.
  rewrite bool_decide_eq_false_2 by done. simpl. fold key. rewrite Hconfig. simpl.
  fold m. rewrite Htrack. simpl.
  rewrite bool_decide_eq_true_2 by done. rewrite Href. simpl.
  fold secretKey. rewrite Hsecret. simpl. rewrite Hdata. simpl.
  rewrite bool_decide_eq_false_2 by done.
  by rewrite <-!app_assoc.
Qed.

Lemma GetConfig_success_path_witness :
  let selector := {| sks_Name := "sonar-credentials"; sks_Namespace := "secrets";
                     sks_Key := "token" |} in
  let spec := {| pcs_Credentials_Source := "Secret";
                 pcs_Credentials_SecretRef := Some selector;
                 pcs_BaseURL := "https://sonar.example.org";
                 pcs_InsecureSkipVerify := None |} in
  let secret := {| secret_Data := {[ "token" := Some "squ_123" ]} |} in
  let client : Client unit :=
    {| GetSecret := λ _ _, inr secret;
       GetProviderConfig := λ _ _, inr spec;
       GetClusterProviderConfig := λ _ _, inl (errors.New "not found");
       Track := λ _ k, (None, k) |} in
  let m := {| mm_Namespace := "team-a";
              mm_ProviderConfigReference :=
                Some {| pcr_Kind := ""; pcr_Name := "sonar" |} |} in
  GetConfig client (Modern m) {| kube := (); accesses := [] |}
  = (Normal (Some {| Token := "squ_123";
                     BaseURL := "https://sonar.example.org";
                     InsecureSkipVerify := false |},
             None),
     {| kube := ();
        accesses := [AccessProviderConfig {| nn_Namespace := "team-a";
                                             nn_Name := "sonar" |};
                     AccessTrack (Modern m);
                     AccessSecret {| nn_Namespace := "secrets";
                                     nn_Name := "sonar-credentials" |}] |}).
Proof.
  intros selector spec secret client m.
  apply (GetConfig_success_path client {| kube := (); accesses := [] |} "team-a"
           {| pcr_Kind := ""; pcr_Name := "sonar" |} spec selector () secret "squ_123").
  - by vm_compute.
  - reflexivity.
  - reflexivity.
  - reflexivity.
  - reflexivity.
  - reflexivity.
  - reflexivity.
  - by vm_compute.
Defined.

End ConfigPaths.

(** * Properties of the connectors *)

Section ConnectProperties.

Import v1alpha1 managed common connect.


(** X29. [Connect] stops before it reads any provider config when the
    resource is not of the controller's kind, in which case it returns the
    error of the kind without any access to the cluster, and when the
    connector's usage tracker fails, in which case it returns that error
    under the label of the tracking and the tracking is its only access
    to the cluster. *)
Theorem Connect_stops_early {K Srv : Type}
    (gateAccessors : QualityGate → ModernManaged)
    (conditionAccessors : QualityGateCondition → ModernManaged)
    (c : connector (K := K) (Srv := Srv)) (mg : v1alpha1.Managed) (w : Cluster K) :
  (asQualityGate mg = None →
     ConnectQualityGate gateAccessors c mg w
     = (Normal (None, Some (errors.New qualitygate.errNotQualityGate)), w))
  ∧ (∀ cr e k1,
       mg = ManagedQualityGate cr →
       conn_usage c (Modern (gateAccessors cr)) (kube w) = (Some e, k1) →
       ConnectQualityGate gateAccessors c mg w
       = (Normal (None, Some (errors.withMessage e errTrackPCUsage)),
          {| kube := k1;
             accesses := accesses w ++ [AccessTrack (Modern (gateAccessors cr))] |}))
  ∧ (asQualityGateCondition mg = None →
     ConnectQualityGateCondition conditionAccessors c mg w
     = (Normal (None,
                Some (errors.New qualitygatecondition.errNotQualityGateCondition)), w))
  ∧ (∀ cr e k1,
       mg = ManagedQualityGateCondition cr →
       conn_usage c (Modern (conditionAccessors cr)) (kube w) = (Some e, k1) →
       ConnectQualityGateCondition conditionAccessors c mg w
       = (Normal (None, Some (errors.withMessage e errTrackPCUsage)),
          {| kube := k1;
             accesses :=
               accesses w ++ [AccessTrack (Modern (conditionAccessors cr))] |})).
Proof.
  repeat split.
  - intros Hkind. unfold ConnectQualityGate. by rewrite Hkind.
  - intros cr e k1 -> Husage. unfold ConnectQualityGate. simpl.
    unfold common.track, mbind, managed.M_bind. simpl. by rewrite Husage.
  - intros Hkind. unfold ConnectQualityGateCondition. by rewrite Hkind.
  - intros cr e k1 -> Husage. unfold ConnectQualityGateCondition. simpl.
    unfold common.track, mbind, managed.M_bind. simpl. by rewrite Husage.
Qed.

Lemma Connect_stops_early_witness :
  let accessors : QualityGate → ModernManaged :=
    λ _, {| mm_Namespace := "team-a";
            mm_ProviderConfigReference :=
              Some {| pcr_Kind := "ProviderConfig"; pcr_Name := "sonar" |} |} in
  let c : connector (K := unit) (Srv := unit) :=
    {| conn_kube :=
         {| GetSecret := λ _ _, inl (errors.New "not found");
            GetProviderConfig := λ _ _, inl (errors.New "not found");
            GetClusterProviderConfig := λ _ _, inl (errors.New "not found");
            Track := λ _ k, (None, k) |};
       conn_usage := λ _ k, (None, k);
       conn_newServiceFn := λ _, Normal (fake.client fake.noCalls) |} in
  let w := {| kube := (); accesses := [] |} in
  ConnectQualityGate accessors c testdata.conditionExists_mg w
  = (Normal (None, Some (errors.New qualitygate.errNotQualityGate)), w).
Proof.
  intros accessors c w.
  apply (proj1 (Connect_stops_early accessors
                  (λ _, {| mm_Namespace := ""; mm_ProviderConfigReference := None |})
                  c testdata.conditionExists_mg w)).
  reflexivity.
Defined.

End ConnectProperties.

Section ConnectPanics.

Import v1alpha1 managed common connect.

(** A connector whose [newServiceFn] panics, on a cluster that yields a
    configuration: [Connect] reads the provider config, tracks the usage
    twice (once through the connector's tracker, once while the
    configuration is built), reads the secret, and then panics. *)
Example Connect_panics_where_newServiceFn_does :
  let selector := {| sks_Name := "sonar-credentials"; sks_Namespace := "secrets";
                     sks_Key := "token" |} in
  let spec := {| pcs_Credentials_Source := "Secret";
                 pcs_Credentials_SecretRef := Some selector;
                 pcs_BaseURL := "::not a url";
                 pcs_InsecureSkipVerify := None |} in
  let m := {| mm_Namespace := "team-a";
              mm_ProviderConfigReference :=
                Some {| pcr_Kind := "ProviderConfig"; pcr_Name := "sonar" |} |} in
  let c : connector (K := unit) (Srv := unit) :=
    {| conn_kube :=
         {| GetSecret := λ _ _, inr {| secret_Data := {[ "token" := Some "squ_123" ]} |};
            GetProviderConfig := λ _ _, inr spec;
            GetClusterProviderConfig := λ _ _, inl (errors.New "not found");
            Track := λ _ k, (None, k) |};
       conn_usage := λ _ k, (None, k);
       conn_newServiceFn := λ _, Panic "invalid base URL" |} in
  let r := ConnectQualityGate (λ _, m) c testdata.showFails_mg
             {| kube := (); accesses := [] |} in
  fst r = Panic "invalid base URL"
  ∧ accesses (snd r)
    = [AccessTrack (Modern m);
       AccessProviderConfig {| nn_Namespace := "team-a"; nn_Name := "sonar" |};
       AccessTrack (Modern m);
       AccessSecret {| nn_Namespace := "secrets"; nn_Name := "sonar-credentials" |}].
Proof. by vm_compute. Qed.

End ConnectPanics.
